(** * Code Review Assistant: metrics recorder and rule engine

    A shallow embedding of [metrics.py] and [review_logic.py].

    Conventions of the embedding.
    - Python [int] is [Z].  Python [float] is modelled by the exact
      rationals [Q], without rounding and without [OverflowError].
      A theorem that states the value of a computed float, or that
      depends on a division having returned, carries the condition
      under which Python computes that very rational (module
      [Doubles]); the other theorems use floats only at values that are
      exact doubles.
    - A Python [dict] is an association list in insertion order
      (module [Dict]); assigning to an existing key keeps its position.
    - Python [str] is [string]; a character is a code point below 256.
    - A method that mutates [self] is a function from the old state to
      the new one; where a returned object shares nested dictionaries
      with the stored one, the stored state after the call carries the
      mutation. *)

From Stdlib Require Import ZArith QArith List String Ascii Bool Lia.
From Stdlib Require Import DecimalString Sorted Permutation Qabs.
Import ListNotations.

Local Open Scope string_scope.
Local Open Scope list_scope.
Local Open Scope Z_scope.

(** ** Ordered dictionaries with string keys *)

Module Dict.
Section WithValues.
Context {V : Type}.

Definition t : Type := list (string * V).

Definition empty : t := [].

(** [d.get(k)] *)
Fixpoint get (d : t) (k : string) : option V :=
  match d with
  | [] => None
  | (k', v) :: d' => if String.eqb k k' then Some v else get d' k
  end.

(** [k in d] *)
Definition mem (d : t) (k : string) : bool :=
  match get d k with Some _ => true | None => false end.

(** [d[k] = v] *)
Fixpoint set (d : t) (k : string) (v : V) : t :=
  match d with
  | [] => [(k, v)]
  | (k', v') :: d' =>
      if String.eqb k k' then (k', v) :: d' else (k', v') :: set d' k v
  end.

(** [d.keys()], [d.values()] *)
Definition keys (d : t) : list string := map fst d.
Definition values (d : t) : list V := map snd d.

(** [bool(d)] *)
Definition truthy (d : t) : bool :=
  match d with [] => false | _ :: _ => true end.
End WithValues.
Arguments t : clear implicits.
End Dict.

(** ** metrics.py *)

Module Metrics.

Local Open Scope Q_scope.

(** [a / b * k] on Python ints, as true division, in exact arithmetic:
    Python returns this rational when the quotient and the product are
    doubles ([Doubles.exact_ratio_times]), a rounded value otherwise,
    and raises [OverflowError] when the quotient is beyond the doubles. *)
Definition ratio_times (a b : Q) (k : Q) : Q := a / b * k.

(** The five built-in counters, as every issues dictionary is created. *)
Definition zero_counters {V : Type} (zero : V) : Dict.t V :=
  [("security", zero); ("performance", zero); ("style", zero);
   ("logic", zero); ("other", zero)].

(** [self._metrics["coverage"]]: four stored counters, and the two
    derived keys that are absent until something writes them. *)
Record Coverage : Type := mkCoverage {
  files_reviewed : Z;
  lines_reviewed : Z;
  total_files : Z;
  total_lines : Z;
  file_coverage_percent : option Q;
  line_coverage_percent : option Q
}.

Record IssueDetail : Type := mkIssueDetail {
  d_type : string;
  d_line : option Z;
  d_description : option string
}.

(** One entry of [self._metrics["file_metrics"]]. *)
Record FileMetric : Type := mkFileMetric {
  fm_lines_reviewed : Z;
  fm_total_lines : Z;
  coverage_percent : Q;
  review_time : option Q;
  fm_issues : Dict.t Z;
  issue_details : option (list IssueDetail)
}.

(** [self._metrics] *)
Record t : Type := mkMetrics {
  review_start_time : Q;
  timing : Dict.t (list Q);
  coverage : Coverage;
  issues : Dict.t Q;
  file_metrics : Dict.t FileMetric
}.

(** The dictionary [get_metrics] returns: a shallow copy of
    [self._metrics] with two more top-level keys. *)
Record Snapshot : Type := mkSnapshot {
  s_review_start_time : Q;
  s_timing : Dict.t (list Q);
  s_coverage : Coverage;
  s_issues : Dict.t Q;
  s_file_metrics : Dict.t FileMetric;
  review_end_time : Q;
  total_duration_seconds : Q
}.

Inductive result (A : Type) : Type :=
| Ok (a : A)
| KeyError (key : string) (state : t).
Arguments Ok {A} a.
Arguments KeyError {A} key state.

(** [Metrics.__init__], at wall-clock time [now]. *)
Definition init (now : Q) : t :=
  {| review_start_time := now;
     timing := Dict.empty;
     coverage := mkCoverage 0 0 0 0 None None;
     issues := zero_counters 0;
     file_metrics := Dict.empty |}.

Definition with_coverage (m : t) (c : Coverage) : t :=
  mkMetrics (review_start_time m) (timing m) c (issues m) (file_metrics m).
Definition with_issues (m : t) (i : Dict.t Q) : t :=
  mkMetrics (review_start_time m) (timing m) (coverage m) i (file_metrics m).
Definition with_file_metrics (m : t) (f : Dict.t FileMetric) : t :=
  mkMetrics (review_start_time m) (timing m) (coverage m) (issues m) f.
Definition with_timing (m : t) (tm : Dict.t (list Q)) : t :=
  mkMetrics (review_start_time m) tm (coverage m) (issues m) (file_metrics m).

(** [Metrics.record_file_review].  The division is exact and always
    returns here; see [ratio_times]. *)
Definition record_file_review (m : t) (filename : string)
    (lines total : Z) : t :=
  let c := coverage m in
  let c' := mkCoverage (files_reviewed c + 1)%Z (lines_reviewed c + lines)%Z
              (total_files c) (total_lines c)
              (file_coverage_percent c) (line_coverage_percent c) in
  let fm := {| fm_lines_reviewed := lines;
               fm_total_lines := total;
               coverage_percent :=
                 if (0 <? total)%Z
                 then ratio_times (inject_Z lines) (inject_Z total) 100
                 else 100;
               review_time := None;
               fm_issues := zero_counters 0%Z;
               issue_details := None |} in
  with_file_metrics (with_coverage m c') (Dict.set (file_metrics m) filename fm).

(** [Metrics.set_total_codebase_size] *)
Definition set_total_codebase_size (m : t) (files lines : Z) : t :=
  let c := coverage m in
  with_coverage m
    (mkCoverage (files_reviewed c) (lines_reviewed c) files lines
       (file_coverage_percent c) (line_coverage_percent c)).

(** Truth value of [line_number or description]. *)
Definition details_given (line_number : option Z)
    (description : option string) : bool :=
  match line_number with
  | Some n => negb (n =? 0)%Z
  | None => false
  end
  || match description with
     | Some s => negb (String.eqb s "")
     | None => false
     end.

(** [Metrics.record_issue].  [d[k] += 1] raises [KeyError] when [k] is
    not a key of [d]; what was written before the raise stays written. *)
Definition record_issue (m : t) (issue_type filename : string)
    (line_number : option Z) (description : option string) : result t :=
  let issue_type :=
    if Dict.mem (issues m) issue_type then issue_type else "other" in
  match Dict.get (issues m) issue_type with
  | None => KeyError issue_type m
  | Some n =>
      let m1 := with_issues m (Dict.set (issues m) issue_type (n + 1)) in
      match Dict.get (file_metrics m1) filename with
      | None => Ok m1
      | Some fm =>
          match Dict.get (fm_issues fm) issue_type with
          | None => KeyError issue_type m1
          | Some k =>
              let fm1 := mkFileMetric (fm_lines_reviewed fm) (fm_total_lines fm)
                           (coverage_percent fm) (review_time fm)
                           (Dict.set (fm_issues fm) issue_type (k + 1)%Z)
                           (issue_details fm) in
              let fm2 :=
                if details_given line_number description then
                  let old := match issue_details fm1 with
                             | Some l => l
                             | None => []
                             end in
                  mkFileMetric (fm_lines_reviewed fm1) (fm_total_lines fm1)
                    (coverage_percent fm1) (review_time fm1) (fm_issues fm1)
                    (Some (old ++ [mkIssueDetail issue_type line_number
                                     description]))
                else fm1 in
              Ok (with_file_metrics m1 (Dict.set (file_metrics m1) filename fm2))
          end
      end
  end.

(** [sum(d.values())] *)
Definition sum_values (d : Dict.t Q) : Q :=
  fold_left Qplus (Dict.values d) 0.

(** [Metrics.get_metrics], at wall-clock time [now].  The copy is
    shallow: [metrics["coverage"]] and [metrics["issues"]] are the very
    dictionaries stored in [self._metrics], so the keys written here are
    written to the recorder.  The returned pair is the recorder after the
    call and the dictionary handed to the caller.  The three divisions
    are exact here; Python rounds them to doubles and raises
    [OverflowError] when a quotient of two [int]s exceeds the doubles
    ([Doubles.snapshot_in_range] is the condition under which it does
    not). *)
Definition get_metrics (m : t) (now : Q) : t * Snapshot :=
  let c := coverage m in
  let fcp := if (0 <? total_files c)%Z
             then ratio_times (inject_Z (files_reviewed c))
                    (inject_Z (total_files c)) 100
             else 0 in
  let lcp := if (0 <? total_lines c)%Z
             then ratio_times (inject_Z (lines_reviewed c))
                    (inject_Z (total_lines c)) 100
             else 0 in
  let c' := mkCoverage (files_reviewed c) (lines_reviewed c)
              (total_files c) (total_lines c) (Some fcp) (Some lcp) in
  let total := sum_values (issues m) in
  let i1 := Dict.set (issues m) "total" total in
  let density := if (0 <? lines_reviewed c')%Z
                 then ratio_times total (inject_Z (lines_reviewed c')) 1000
                 else 0 in
  let i2 := Dict.set i1 "issues_per_1000_lines" density in
  let m' := with_issues (with_coverage m c') i2 in
  (m',
   {| s_review_start_time := review_start_time m';
      s_timing := timing m';
      s_coverage := coverage m';
      s_issues := issues m';
      s_file_metrics := file_metrics m';
      review_end_time := now;
      total_duration_seconds := now - review_start_time m' |}).

(** The recording done by the wrapper that [timed] builds, once the
    wrapped call has returned after [elapsed] seconds. *)
Definition timed (m : t) (category : string) (filename : option string)
    (elapsed : Q) : t :=
  let samples := match Dict.get (timing m) category with
                 | Some l => l
                 | None => []
                 end in
  let m1 := with_timing m (Dict.set (timing m) category (samples ++ [elapsed])) in
  match filename with
  | Some f =>
      if negb (String.eqb f "") then
        match Dict.get (file_metrics m1) f with
        | Some fm =>
            with_file_metrics m1
              (Dict.set (file_metrics m1) f
                 (mkFileMetric (fm_lines_reviewed fm) (fm_total_lines fm)
                    (coverage_percent fm) (Some elapsed) (fm_issues fm)
                    (issue_details fm)))
        | None => m1
        end
      else m1
  | None => m1
  end.

(** [d["total"]] and [d["issues_per_1000_lines"]] of a reported issues
    dictionary, and the sum of its five built-in counters. *)
Definition lookup0 (d : Dict.t Q) (k : string) : Q :=
  match Dict.get d k with Some v => v | None => 0 end.

Definition five_counters (d : Dict.t Q) : Q :=
  lookup0 d "security" + lookup0 d "performance" + lookup0 d "style"
  + lookup0 d "logic" + lookup0 d "other".

End Metrics.

(** ** Text primitives of the Python runtime used by review_logic.py *)

Module Text.

Definition code (c : ascii) : N := N_of_ascii c.

Definition in_range (lo hi : N) (c : ascii) : bool :=
  ((lo <=? code c) && (code c <=? hi))%N.

Definition newline : ascii := ascii_of_N 10.
Definition dquote : ascii := ascii_of_N 34.
Definition squote : ascii := ascii_of_N 39.
Definition nl : string := String newline EmptyString.

(** [c.isspace()], which is also the class [\s] of a [str] pattern. *)
Definition is_space (c : ascii) : bool :=
  in_range 9 13 c || in_range 28 32 c
  || (code c =? 133)%N || (code c =? 160)%N.

Definition is_upper (c : ascii) : bool := in_range 65 90 c.
Definition is_lower (c : ascii) : bool := in_range 97 122 c.
Definition is_digit (c : ascii) : bool := in_range 48 57 c.

(** [c.lower()] *)
Definition lower_char (c : ascii) : ascii :=
  if is_upper c || (in_range 192 222 c && negb (code c =? 215)%N)
  then ascii_of_N (code c + 32)
  else c.

(** [s.lower()] *)
Fixpoint lower (s : string) : string :=
  match s with
  | EmptyString => EmptyString
  | String c s' => String (lower_char c) (lower s')
  end.

(** [s.split(sep)] for a one-character separator. *)
Fixpoint split (sep : ascii) (s : string) : list string :=
  match s with
  | EmptyString => [EmptyString]
  | String c s' =>
      if Ascii.eqb c sep then EmptyString :: split sep s'
      else match split sep s' with
           | [] => [String c EmptyString]
           | w :: ws => String c w :: ws
           end
  end.

(** [s.count(c, 0, stop)] *)
Fixpoint count_before (c : ascii) (s : string) (stop : nat) : nat :=
  match stop, s with
  | S stop', String x s' =>
      (if Ascii.eqb x c then 1 else 0) + count_before c s' stop'
  | _, _ => 0
  end.

(** [s.lstrip()], [s.rstrip()], [s.strip()] *)
Fixpoint lstrip (s : string) : string :=
  match s with
  | String c s' => if is_space c then lstrip s' else s
  | EmptyString => EmptyString
  end.

Fixpoint rstrip (s : string) : string :=
  match s with
  | EmptyString => EmptyString
  | String c s' =>
      match rstrip s' with
      | EmptyString => if is_space c then EmptyString else String c EmptyString
      | r => String c r
      end
  end.

Definition strip (s : string) : string := rstrip (lstrip s).

(** [s[n:]] *)
Fixpoint drop (n : nat) (s : string) : string :=
  match n, s with
  | S n', String _ s' => drop n' s'
  | _, _ => s
  end.

(** [s[-1]] of a non-empty string. *)
Fixpoint last_char (s : string) : option ascii :=
  match s with
  | EmptyString => None
  | String c EmptyString => Some c
  | String _ s' => last_char s'
  end.

(** [str(n)] of an int. *)
Definition str_of_int (n : Z) : string := NilZero.string_of_int (Z.to_int n).

Fixpoint contains_char (c : ascii) (s : string) : bool :=
  match s with
  | EmptyString => false
  | String x s' => Ascii.eqb x c || contains_char c s'
  end.

(** The part of [s] after its last [c], when [c] occurs. *)
Fixpoint after_last (c : ascii) (s : string) : option string :=
  match s with
  | EmptyString => None
  | String x s' =>
      match after_last c s' with
      | Some r => Some r
      | None => if Ascii.eqb x c then Some s' else None
      end
  end.

Fixpoint drop_leading (c : ascii) (s : string) : string :=
  match s with
  | String x s' => if Ascii.eqb x c then drop_leading c s' else s
  | EmptyString => EmptyString
  end.

(** [os.path.splitext(p)[1]] on a POSIX path: the last dot of the final
    path component and what follows it, unless only dots precede it. *)
Definition splitext_ext (p : string) : string :=
  let base := match after_last "/" p with Some b => b | None => p end in
  match after_last "." (drop_leading "." base) with
  | Some e => String "." e
  | None => EmptyString
  end.

(** [os.path.join(a, b)] on POSIX paths. *)
Definition path_join (a b : string) : string :=
  if String.prefix "/" b then b
  else if String.eqb a "" then b
  else match last_char a with
       | Some "/"%char => a ++ b
       | _ => a ++ "/" ++ b
       end%string.

End Text.

(** ** Regular expressions, as far as the patterns of the module go

    Every pattern of [review_logic.py] is a sequence of single-character
    classes, each taken once, optionally, or repeated greedily, with [$]
    at most at the end; capture groups do not change what is matched. *)

Module Re.

Inductive quant : Type := One | Opt | Star | Plus.

Inductive item : Type :=
| Rep (cls : ascii -> bool) (q : quant)
| Dollar.

Definition regex : Type := list item.

(** Greedy repetition of a class, longest first, backing off one
    character at a time until the rest of the pattern [k] matches. *)
Fixpoint greedy (cls : ascii -> bool) (k : string -> option nat)
    (s : string) : option nat :=
  match s with
  | String c s' =>
      if cls c then
        match greedy cls k s' with
        | Some n => Some (S n)
        | None => k s
        end
      else k s
  | EmptyString => k s
  end.

(** Match [r] at the start of [s]; the length of the match found by
    backtracking search in the order of the [re] module. *)
Fixpoint match_here (r : regex) (s : string) {struct r} : option nat :=
  match r with
  | [] => Some O
  | Dollar :: r' =>
      if String.eqb s "" || String.eqb s Text.nl then match_here r' s else None
  | Rep cls One :: r' =>
      match s with
      | String c s' => if cls c then option_map S (match_here r' s') else None
      | EmptyString => None
      end
  | Rep cls Opt :: r' =>
      match s with
      | String c s' =>
          if cls c then
            match match_here r' s' with
            | Some n => Some (S n)
            | None => match_here r' s
            end
          else match_here r' s
      | EmptyString => match_here r' s
      end
  | Rep cls Star :: r' => greedy cls (match_here r') s
  | Rep cls Plus :: r' =>
      match s with
      | String c s' =>
          if cls c then option_map S (greedy cls (match_here r') s') else None
      | EmptyString => None
      end
  end.

(** [re.match(r, s)] as a truth value. *)
Definition matches (r : regex) (s : string) : bool :=
  match match_here r s with Some _ => true | None => false end.

(** Start offsets of [re.finditer(r, s)], for a pattern that cannot
    match the empty string: after a match the scan resumes at its end. *)
Fixpoint finditer_from (r : regex) (s : string) (pos skip : nat) : list nat :=
  match s with
  | EmptyString => []
  | String _ s' =>
      match skip with
      | S k => finditer_from r s' (S pos) k
      | O =>
          match match_here r s with
          | Some len => pos :: finditer_from r s' (S pos) (Nat.pred len)
          | None => finditer_from r s' (S pos) O
          end
      end
  end.

Definition finditer (r : regex) (s : string) : list nat :=
  finditer_from r s O O.

(** A literal character, under [re.IGNORECASE] or not. *)
Definition chr (ignorecase : bool) (c : ascii) : item :=
  Rep (fun x => if ignorecase
                then Ascii.eqb (Text.lower_char x) (Text.lower_char c)
                else Ascii.eqb x c) One.

Fixpoint literal (ignorecase : bool) (s : string) : regex :=
  match s with
  | EmptyString => []
  | String c s' => chr ignorecase c :: literal ignorecase s'
  end.

Definition quote_char (c : ascii) : bool :=
  Ascii.eqb c Text.dquote || Ascii.eqb c Text.squote.

End Re.

(** ** The syntax trees of the [ast] module

    Only what the checks inspect is kept apart: the three kinds that
    carry a [body] the docstring rule reads, the three branching
    statements, boolean operations, expression statements and string
    constants.  Every other node kind is [Other] with its child nodes;
    that includes [AsyncFunctionDef], [AsyncFor] and [Lambda], which
    no [isinstance] test of the checks accepts.  For [FunctionDef] and
    [ClassDef] the child nodes that come before and after [body] in
    field order are kept in [before] and [after].  [Str] is what
    [isinstance(_, ast.Str)] accepts on the interpreters the package
    declares (3.8 to 3.10): a [Constant] that holds a [str]. *)

Module Ast.

Inductive boolop : Type := And | Or.

#[warnings="-register-all"]
Inductive node : Type :=
| Module (body : list node)
| FunctionDef (name : string) (lineno : Z)
    (before body after : list node)
| ClassDef (name : string) (lineno : Z)
    (before body after : list node)
| If (fields : list node)
| While (fields : list node)
| For (fields : list node)
| BoolOp (op : boolop) (values : list node)
| Expr (value : node)
| Str (s : string)
| Other (fields : list node).

(** The operator object of a [BoolOp] is a child node of its own. *)
Definition op_node (op : boolop) : node := Other [].

(** [ast.iter_child_nodes] *)
Definition iter_child_nodes (n : node) : list node :=
  match n with
  | Module body => body
  | FunctionDef _ _ before body after
  | ClassDef _ _ before body after => before ++ body ++ after
  | If fields | While fields | For fields | Other fields => fields
  | BoolOp op values => op_node op :: values
  | Expr value => [value]
  | Str _ => []
  end.

(** Number of nodes of a subtree. *)
Fixpoint size (n : node) : nat :=
  let fix sizes (l : list node) : nat :=
    match l with
    | [] => O
    | x :: l' => (size x + sizes l')%nat
    end in
  match n with
  | Module body => S (sizes body)
  | FunctionDef _ _ before body after
  | ClassDef _ _ before body after =>
      S (sizes before + (sizes body + sizes after))
  | If fields | While fields | For fields | Other fields => S (sizes fields)
  | BoolOp _ values => S (1 + sizes values)
  | Expr value => S (size value)
  | Str _ => 1%nat
  end.

Definition sizes (l : list node) : nat :=
  fold_right (fun x acc => (size x + acc)%nat) O l.

(** [ast.walk]: breadth first, from a queue that starts with the root.
    The loop runs once per node, so [size] steps exhaust the queue
    (lemma [walk_queue_fuel]). *)
Fixpoint walk_queue (fuel : nat) (todo : list node) : list node :=
  match fuel with
  | O => []
  | S fuel' =>
      match todo with
      | [] => []
      | n :: rest => n :: walk_queue fuel' (rest ++ iter_child_nodes n)
      end
  end.

Definition walk (n : node) : list node := walk_queue (size n) [n].

(** Sum of a weight over all nodes of a subtree, by structural descent. *)
Section SubtreeSum.
Variable weight : node -> Z.

Fixpoint subtree_sum (n : node) : Z :=
  let fix sums (l : list node) : Z :=
    match l with
    | [] => 0
    | x :: l' => subtree_sum x + sums l'
    end in
  weight n +
  match n with
  | Module body => sums body
  | FunctionDef _ _ before body after
  | ClassDef _ _ before body after =>
      sums before + (sums body + sums after)
  | If fields | While fields | For fields | Other fields => sums fields
  | BoolOp op values => weight (op_node op) + sums values
  | Expr value => subtree_sum value
  | Str _ => 0
  end.

Definition subtree_sums (l : list node) : Z :=
  fold_right (fun x acc => subtree_sum x + acc) 0 l.
End SubtreeSum.

(** [isinstance(n, ast.FunctionDef)] and friends. *)
Definition is_FunctionDef (n : node) : bool :=
  match n with FunctionDef _ _ _ _ _ => true | _ => false end.
Definition is_ClassDef (n : node) : bool :=
  match n with ClassDef _ _ _ _ _ => true | _ => false end.
Definition is_Module (n : node) : bool :=
  match n with Module _ => true | _ => false end.

(** [n.body] of the three kinds the docstring rule looks at. *)
Definition body_of (n : node) : option (list node) :=
  match n with
  | Module body => Some body
  | FunctionDef _ _ _ body _ | ClassDef _ _ _ body _ => Some body
  | _ => None
  end.

(** [n.name] of a function or class. *)
Definition name_of (n : node) : option string :=
  match n with
  | FunctionDef name _ _ _ _ | ClassDef name _ _ _ _ => Some name
  | _ => None
  end.

(** [n.lineno] where the checks read it: functions and classes carry
    it, a [Module] object does not have the attribute. *)
Definition lineno_of (n : node) : option Z :=
  match n with
  | FunctionDef _ lineno _ _ _ | ClassDef _ lineno _ _ _ => Some lineno
  | _ => None
  end.

(** What the parser guarantees: [Module] is the root only, and a boolean
    operation has at least two operands. *)
Fixpoint parsed_inner (n : node) : bool :=
  let fix all (l : list node) : bool :=
    match l with
    | [] => true
    | x :: l' => parsed_inner x && all l'
    end in
  match n with
  | Module _ => false
  | FunctionDef _ _ before body after
  | ClassDef _ _ before body after => all before && (all body && all after)
  | If fields | While fields | For fields | Other fields => all fields
  | BoolOp _ values => (2 <=? Z.of_nat (List.length values)) && all values
  | Expr value => parsed_inner value
  | Str _ => true
  end.

Definition parsed_module (n : node) : bool :=
  match n with
  | Module body => forallb parsed_inner body
  | _ => false
  end.

End Ast.

(** ** review_logic.py *)

Module ReviewLogic.
Import Ast.

Inductive Category : Type :=
| Security | Documentation | Style | Maintainability | Debug | Syntax.

Inductive Severity : Type := High | Medium | Low.

Definition category_name (c : Category) : string :=
  match c with
  | Security => "Security"
  | Documentation => "Documentation"
  | Style => "Style"
  | Maintainability => "Maintainability"
  | Debug => "Debug"
  | Syntax => "Syntax"
  end.

Definition severity_name (s : Severity) : string :=
  match s with High => "High" | Medium => "Medium" | Low => "Low" end.

Definition severity_eqb (a b : Severity) : bool :=
  match a, b with
  | High, High | Medium, Medium | Low, Low => true
  | _, _ => false
  end.

(** An issue dictionary as the checks build it: all five keys present;
    [line] is [None] only for a syntax error without a line number. *)
Record Issue : Type := mkIssue {
  file : string;
  line : option Z;
  category : Category;
  severity : Severity;
  message : string
}.

(** [self.stats] *)
Record Stats : Type := mkStats {
  files_reviewed : Z;
  issues_found : Z;
  issue_types : Dict.t Z
}.

(** A [CodeReviewer] instance. *)
Record CodeReviewer : Type := mkReviewer {
  template_path : string;
  issues : list Issue;
  stats : Stats
}.

(** [CodeReviewer.__init__] with an explicit, non-empty template
    directory (an empty or missing argument selects the directory
    beside the module, which is not modelled). *)
Definition init (template_path : string) : CodeReviewer :=
  mkReviewer template_path [] (mkStats 0 0 Dict.empty).

(** Exceptions, all of them subclasses of [Exception]. *)
Inductive exception : Type :=
| FileNotFoundError (msg : string)
| AttributeError (msg : string)
| OtherException (cls msg : string).

(** [str(e)] *)
Definition exception_str (e : exception) : string :=
  match e with
  | FileNotFoundError msg | AttributeError msg | OtherException _ msg => msg
  end.

(** The outside world: what [open(path).read()] and [ast.parse] do. *)
Inductive read_result : Type :=
| ReadOk (content : string)
| ReadRaises (e : exception).

Inductive parse_result : Type :=
| Parsed (tree : node)
| SyntaxError (lineno : option Z) (msg : string)
| ParseRaises (e : exception).

Record World : Type := mkWorld {
  open_read : string -> read_result;
  ast_parse : string -> parse_result
}.

(** The reviewer together with what was sent to [logger.error]. *)
Record state : Type := mkState {
  self : CodeReviewer;
  log : list string
}.

Inductive outcome (A : Type) : Type :=
| Return (a : A) (s : state)
| Raise (e : exception) (s : state).
Arguments Return {A} a s.
Arguments Raise {A} e s.

Definition M (A : Type) : Type := state -> outcome A.

Definition ret {A : Type} (a : A) : M A := fun s => Return a s.

Definition bind {A B : Type} (m : M A) (f : A -> M B) : M B :=
  fun s =>
    match m s with
    | Return a s' => f a s'
    | Raise e s' => Raise e s'
    end.

Definition raise {A : Type} (e : exception) : M A := fun s => Raise e s.

(** [try: body  except cls as e: handler(e)], [catches] telling which
    exceptions the clause takes. *)
Definition try_except {A : Type} (body : M A) (catches : exception -> bool)
    (handler : exception -> M A) : M A :=
  fun s =>
    match body s with
    | Return a s' => Return a s'
    | Raise e s' => if catches e then handler e s' else Raise e s'
    end.

Declare Scope review_scope.
Delimit Scope review_scope with review.
Notation "x <- m ;; k" := (bind m (fun x => k))
  (at level 61, m at next level, right associativity) : review_scope.
Notation "m ;; k" := (bind m (fun _ => k))
  (at level 61, right associativity) : review_scope.
Local Open Scope review_scope.

Definition get_self : M CodeReviewer := fun s => Return (self s) s.

Definition put_self (r : CodeReviewer) : M unit :=
  fun s => Return tt (mkState r (log s)).

(** [logger.error(msg)] *)
Definition logger_error (msg : string) : M unit :=
  fun s => Return tt (mkState (self s) (log s ++ [msg])).

(** [self.issues = l] *)
Definition set_issues (l : list Issue) : M unit :=
  r <- get_self ;;
  put_self (mkReviewer (template_path r) l (stats r)).

(** [self.issues.append(i)] *)
Definition append_issue (i : Issue) : M unit :=
  r <- get_self ;;
  put_self (mkReviewer (template_path r) (issues r ++ [i]) (stats r)).

(** [for x in l: body(x)] *)
Fixpoint foreach {A : Type} (l : list A) (body : A -> M unit) : M unit :=
  match l with
  | [] => ret tt
  | x :: l' => body x ;; foreach l' body
  end.

(** [open(path, 'r')] followed by [f.read()]. *)
Definition read_file (w : World) (path : string) : M string :=
  match open_read w path with
  | ReadOk content => ret content
  | ReadRaises e => raise e
  end.

Definition is_FileNotFoundError (e : exception) : bool :=
  match e with FileNotFoundError _ => true | _ => false end.

(** [except Exception]: every exception of the model. *)
Definition is_Exception (e : exception) : bool := true.

(** [CodeReviewer._parse_template] *)
Fixpoint parse_template_lines (lines : list string)
    (sections : Dict.t (list string)) (current_section : option string)
    : Dict.t (list string) :=
  match lines with
  | [] => sections
  | l :: rest =>
      if String.prefix "## " l then
        let name := Text.strip (Text.drop 3 l) in
        parse_template_lines rest (Dict.set sections name []) (Some name)
      else if String.prefix "- [ ] " l then
        match current_section with
        | Some name =>
            if negb (String.eqb name "") then
              let item := Text.strip (Text.drop 6 l) in
              let old := match Dict.get sections name with
                         | Some items => items
                         | None => []
                         end in
              parse_template_lines rest (Dict.set sections name (old ++ [item]))
                current_section
            else parse_template_lines rest sections current_section
        | None => parse_template_lines rest sections current_section
        end
      else parse_template_lines rest sections current_section
  end.

Definition _parse_template (content : string) : Dict.t (list string) :=
  parse_template_lines (Text.split Text.newline content) Dict.empty None.

(** [CodeReviewer.load_template] *)
Definition load_template (w : World) (template_name : string)
    : M (Dict.t (list string)) :=
  r <- get_self ;;
  let template_file :=
    Text.path_join (template_path r) (template_name ++ ".md")%string in
  try_except
    (content <- read_file w template_file ;;
     ret (_parse_template content))
    is_FileNotFoundError
    (fun _ =>
       logger_error ("Template " ++ template_name ++ " not found at "
                     ++ template_file)%string ;;
       ret Dict.empty).

(** The four credential patterns, compiled with [re.IGNORECASE]. *)
Definition assigned_literal : Re.regex :=
  [Re.Rep Text.is_space Re.Star; Re.chr true "=";
   Re.Rep Text.is_space Re.Star; Re.Rep Re.quote_char Re.One;
   Re.Rep (fun c => negb (Re.quote_char c)) Re.Plus;
   Re.Rep Re.quote_char Re.One].

Definition credential_patterns : list Re.regex :=
  [Re.literal true "password" ++ assigned_literal;
   Re.literal true "api" ++ [Re.Rep (Ascii.eqb "_") Re.Opt]
     ++ Re.literal true "key" ++ assigned_literal;
   Re.literal true "secret" ++ assigned_literal;
   Re.literal true "token" ++ assigned_literal].

(** [content.count('\n', 0, start) + 1] *)
Definition line_at (content : string) (start : nat) : Z :=
  Z.of_nat (Text.count_before Text.newline content start) + 1.

(** [CodeReviewer._check_hardcoded_credentials] *)
Definition _check_hardcoded_credentials (file_path content : string)
    : M unit :=
  foreach credential_patterns (fun pattern =>
    foreach (Re.finditer pattern content) (fun start =>
      append_issue
        (mkIssue file_path (Some (line_at content start)) Security High
           "Potential hardcoded credential detected"))).

(** [node.body and isinstance(node.body[0], ast.Expr) and
    isinstance(node.body[0].value, ast.Str)] *)
Definition starts_with_docstring (body : list node) : bool :=
  match body with
  | Expr (Str _) :: _ => true
  | _ => false
  end.

(** Reading [node.lineno]. *)
Definition getattr_lineno (n : node) : M Z :=
  match lineno_of n with
  | Some l => ret l
  | None => raise (AttributeError "'Module' object has no attribute 'lineno'")
  end.

(** [CodeReviewer._check_docstrings] *)
Definition _check_docstrings (file_path : string) (tree : node) : M unit :=
  foreach (walk tree) (fun n =>
    match body_of n with
    | Some body =>
        let has_docstring := starts_with_docstring body in
        let private :=
          match n with
          | FunctionDef name _ _ _ _ => String.prefix "_" name
          | _ => false
          end in
        if negb has_docstring && negb private then
          let node_type := if is_FunctionDef n then "function" else "class" in
          let node_name := match name_of n with
                           | Some name => name
                           | None => "module"
                           end in
          lineno <- getattr_lineno n ;;
          append_issue
            (mkIssue file_path (Some lineno) Documentation Medium
               ("Missing docstring for " ++ node_type ++ " '" ++ node_name
                ++ "'")%string)
        else ret tt
    | None => ret tt
    end).

Definition is_alnum (c : ascii) : bool :=
  Text.is_lower c || Text.is_upper c || Text.is_digit c.

(** [^[A-Z][a-zA-Z0-9]*$] and [^[a-z][a-z0-9_]*$], used with [re.match]. *)
Definition camel_case : Re.regex :=
  [Re.Rep Text.is_upper Re.One; Re.Rep is_alnum Re.Star; Re.Dollar].

Definition snake_case : Re.regex :=
  [Re.Rep Text.is_lower Re.One;
   Re.Rep (fun c => Text.is_lower c || Text.is_digit c || Ascii.eqb c "_")
     Re.Star;
   Re.Dollar].

(** [CodeReviewer._check_naming_conventions] *)
Definition _check_naming_conventions (file_path : string) (tree : node)
    : M unit :=
  foreach (walk tree) (fun n =>
    match n with
    | ClassDef name lineno _ _ _ =>
        if negb (Re.matches camel_case name) then
          append_issue
            (mkIssue file_path (Some lineno) Style Low
               ("Class '" ++ name
                ++ "' doesn't follow CamelCase naming convention")%string)
        else ret tt
    | FunctionDef name lineno _ _ _ =>
        if negb (String.prefix "__" name)
           && negb (Re.matches snake_case name) then
          append_issue
            (mkIssue file_path (Some lineno) Style Low
               ("Function '" ++ name
                ++ "' doesn't follow snake_case naming convention")%string)
        else ret tt
    | _ => ret tt
    end).

(** One turn of the loop of [_calculate_complexity]. *)
Definition complexity_step (complexity : Z) (subnode : node) : Z :=
  match subnode with
  | If _ | While _ | For _ => complexity + 1
  | BoolOp And values => complexity + (Z.of_nat (List.length values) - 1)
  | _ => complexity
  end.

(** [CodeReviewer._calculate_complexity] *)
Definition _calculate_complexity (n : node) : Z :=
  fold_left complexity_step (walk n) 1.

(** [CodeReviewer._check_function_complexity] *)
Definition _check_function_complexity (file_path : string) (tree : node)
    : M unit :=
  foreach (walk tree) (fun n =>
    match n with
    | FunctionDef name lineno _ _ _ =>
        let complexity := _calculate_complexity n in
        if 10 <? complexity then
          append_issue
            (mkIssue file_path (Some lineno) Maintainability Medium
               ("Function '" ++ name ++ "' has high cyclomatic complexity ("
                ++ Text.str_of_int complexity ++ ")")%string)
        else ret tt
    | _ => ret tt
    end).

(** [CodeReviewer._check_console_logs] *)
Definition _check_console_logs (file_path content : string) : M unit :=
  foreach (Re.finditer (Re.literal false "console.log(") content)
    (fun start =>
       append_issue
         (mkIssue file_path (Some (line_at content start)) Debug Low
            "console.log statement should be removed in production code")).

(** [for i, line in enumerate(lines)] *)
Fixpoint enumerate_from {A : Type} (i : Z) (l : list A) : list (Z * A) :=
  match l with
  | [] => []
  | x :: l' => (i, x) :: enumerate_from (i + 1) l'
  end.

(** [CodeReviewer._check_line_length] *)
Definition _check_line_length (file_path content : string) : M unit :=
  let max_length := 100 in
  foreach (enumerate_from 0 (Text.split Text.newline content))
    (fun '(i, l) =>
       let len := Z.of_nat (String.length l) in
       if max_length <? len then
         append_issue
           (mkIssue file_path (Some (i + 1)) Style Low
              ("Line exceeds " ++ Text.str_of_int max_length
               ++ " characters (length: " ++ Text.str_of_int len ++ ")")%string)
       else ret tt).

(** [CodeReviewer._check_trailing_whitespace] *)
Definition _check_trailing_whitespace (file_path content : string) : M unit :=
  foreach (enumerate_from 0 (Text.split Text.newline content))
    (fun '(i, l) =>
       match Text.last_char l with
       | Some c =>
           if Text.is_space c then
             append_issue
               (mkIssue file_path (Some (i + 1)) Style Low
                  "Line has trailing whitespace")
           else ret tt
       | None => ret tt
       end).

(** [CodeReviewer._review_python_file] *)
Definition _review_python_file (w : World) (file_path content : string)
    (template : Dict.t (list string)) : M unit :=
  match ast_parse w content with
  | Parsed tree =>
      _check_hardcoded_credentials file_path content ;;
      _check_docstrings file_path tree ;;
      _check_naming_conventions file_path tree ;;
      _check_function_complexity file_path tree
  | SyntaxError lineno msg =>
      append_issue
        (mkIssue file_path lineno Syntax High ("Syntax error: " ++ msg)%string)
  | ParseRaises e => raise e
  end.

(** [CodeReviewer._review_javascript_file] *)
Definition _review_javascript_file (file_path content : string)
    (template : Dict.t (list string)) : M unit :=
  _check_console_logs file_path content ;;
  _check_hardcoded_credentials file_path content.

(** [CodeReviewer._review_generic_file] *)
Definition _review_generic_file (file_path content : string)
    (template : Dict.t (list string)) : M unit :=
  _check_line_length file_path content ;;
  _check_trailing_whitespace file_path content.

(** The statistics update at the end of a successful review. *)
Definition count_issue_types (l : list Issue) (types : Dict.t Z) : Dict.t Z :=
  fold_left
    (fun d i =>
       let c := category_name (category i) in
       Dict.set d c (match Dict.get d c with Some n => n | None => 0 end + 1))
    l types.

Definition update_statistics : M unit :=
  r <- get_self ;;
  let st := stats r in
  put_self
    (mkReviewer (template_path r) (issues r)
       (mkStats (files_reviewed st + 1)
          (issues_found st + Z.of_nat (List.length (issues r)))
          (count_issue_types (issues r) (issue_types st)))).

(** [CodeReviewer.review_file] *)
Definition review_file (w : World) (file_path template_name : string)
    : M (list Issue) :=
  set_issues [] ;;
  template <- load_template w template_name ;;
  if negb (Dict.truthy template) then
    logger_error ("Failed to load template " ++ template_name)%string ;;
    ret []
  else
    try_except
      (content <- read_file w file_path ;;
       let file_ext := Text.lower (Text.splitext_ext file_path) in
       (if String.eqb file_ext ".py" then
          _review_python_file w file_path content template
        else if String.eqb file_ext ".js" || String.eqb file_ext ".ts" then
          _review_javascript_file file_path content template
        else
          _review_generic_file file_path content template) ;;
       update_statistics ;;
       r <- get_self ;;
       ret (issues r))
      is_Exception
      (fun e =>
         logger_error ("Error reviewing file " ++ file_path ++ ": "
                       ++ exception_str e)%string ;;
         ret []).

(** Grouping of issues by file, files in first-seen order. *)
Definition group_by_file (l : list Issue) : Dict.t (list Issue) :=
  fold_left
    (fun d i =>
       Dict.set d (file i)
         (match Dict.get d (file i) with Some old => old | None => [] end
          ++ [i]))
    l Dict.empty.

(** [f"{line}"] *)
Definition str_of_line (l : option Z) : string :=
  match l with Some n => Text.str_of_int n | None => "None" end.

Definition no_issues_report : string :=
  ("# Code Review Report" ++ Text.nl ++ Text.nl
   ++ "No issues found in the code review.")%string.

Definition severity_block (file_issues : list Issue) (sev : Severity)
    : list string :=
  let severity_issues :=
    filter (fun i => severity_eqb (severity i) sev) file_issues in
  match severity_issues with
  | [] => []
  | _ :: _ =>
      [("#### " ++ severity_name sev ++ " Severity Issues" ++ Text.nl)%string]
      ++ map (fun i =>
                ("- **Line " ++ str_of_line (line i) ++ "** ("
                 ++ category_name (category i) ++ "): " ++ message i)%string)
           severity_issues
      ++ [EmptyString]
  end.

(** [CodeReviewer.generate_review_report]; [None] is the default
    argument. *)
Definition generate_review_report (r : CodeReviewer)
    (issues_arg : option (list Issue)) : string :=
  let issues :=
    match issues_arg with
    | Some (i :: l) => i :: l
    | Some [] | None => issues r
    end in
  match issues with
  | [] => no_issues_report
  | _ :: _ =>
      let issues_by_file := group_by_file issues in
      let report :=
        [("# Code Review Report" ++ Text.nl)%string;
         ("## Summary" ++ Text.nl)%string;
         ("- Files reviewed: "
          ++ Text.str_of_int (files_reviewed (stats r)))%string;
         ("- Total issues found: "
          ++ Text.str_of_int (issues_found (stats r)))%string;
         (Text.nl ++ "### Issues by Category" ++ Text.nl)%string]
        ++ map (fun '(c, n) => ("- " ++ c ++ ": " ++ Text.str_of_int n)%string)
             (issue_types (stats r))
        ++ [(Text.nl ++ "## Detailed Findings" ++ Text.nl)%string]
        ++ flat_map
             (fun '(file_path, file_issues) =>
                [("### File: `" ++ file_path ++ "`" ++ Text.nl)%string]
                ++ flat_map (severity_block file_issues) [High; Medium; Low])
             issues_by_file in
      String.concat Text.nl report
  end.

End ReviewLogic.

(** ** Drivers and statements used by the theorems *)

Module Scenario.
Import Metrics.
Local Open Scope Q_scope.

(** A caller recording a batch of issues, one call after the other. *)
Fixpoint record_issues (m : Metrics.t)
    (batch : list (string * string * option Z * option string))
    : result Metrics.t :=
  match batch with
  | [] => Ok m
  | (issue_type, filename, line_number, description) :: rest =>
      match record_issue m issue_type filename line_number description with
      | Ok m' => record_issues m' rest
      | KeyError k m' => KeyError k m'
      end
  end.

(** The recorder of [test_issues_per_line_calculation]: one file of
    1000 reviewed lines and five security issues against it. *)
Definition five_security_issues : result Metrics.t :=
  record_issues (record_file_review (init 0) "test.py" 1000 1000)
    [("security", "test.py", Some 1%Z, Some "Issue 1");
     ("security", "test.py", Some 2%Z, Some "Issue 2");
     ("security", "test.py", Some 3%Z, Some "Issue 3");
     ("security", "test.py", Some 4%Z, Some "Issue 4");
     ("security", "test.py", Some 5%Z, Some "Issue 5")].

(** No snapshot has been taken: the issues dictionary has the five
    keys it was created with. *)
Definition builtin_keys : list string :=
  ["security"; "performance"; "style"; "logic"; "other"].

Definition unqueried (m : Metrics.t) : Prop :=
  Dict.keys (issues m) = builtin_keys.

(** What a snapshot reports. *)
Definition reported_total (s : Snapshot) : Q := lookup0 (s_issues s) "total".
Definition reported_density (s : Snapshot) : Q :=
  lookup0 (s_issues s) "issues_per_1000_lines".



End Scenario.

(** ** The complexity formula and the rules, as the specification words them *)

Module Spec.
Import Ast ReviewLogic.

(** Sum of a weight over a list of nodes, in list order. *)
Definition total (weight : node -> Z) (l : list node) : Z :=
  fold_right (fun x acc => weight x + acc) 0 l.

(** 1 for [if], [while] and [for]. *)
Definition branch_weight (n : node) : Z :=
  match n with
  | If _ | While _ | For _ => 1
  | _ => 0
  end.

(** [k - 1] for an and-chain of [k] operands. *)
Definition and_chain_weight (n : node) : Z :=
  match n with
  | BoolOp And values => Z.of_nat (List.length values) - 1
  | _ => 0
  end.

(** 1 for an and-chain. *)
Definition and_chain (n : node) : Z :=
  match n with
  | BoolOp And _ => 1
  | _ => 0
  end.

(** Occurrences anywhere in the subtree of [n]. *)
Definition branch_count (n : node) : Z := subtree_sum branch_weight n.
Definition and_chain_count (n : node) : Z := subtree_sum and_chain n.
Definition and_chain_extra (n : node) : Z := subtree_sum and_chain_weight n.

(** "Start at 1; for every [if], [while], [for] anywhere in the
    function's subtree, add 1; for every and-chain with [k] operands,
    add [k - 1]." *)
Definition spec_complexity (n : node) : Z :=
  1 + branch_count n + and_chain_extra n.

(** The reviewer after [l] was appended to [self.issues]. *)
Definition add_issues (l : list Issue) (s : state) : state :=
  mkState
    (mkReviewer (template_path (self s)) (issues (self s) ++ l)
       (stats (self s)))
    (log s).

(** The findings of the credential rule on [content], in the order the
    rule appends them. *)
Definition credential_findings (file_path content : string) : list Issue :=
  flat_map
    (fun pattern =>
       map (fun start =>
              mkIssue file_path (Some (line_at content start)) Security High
                "Potential hardcoded credential detected")
         (Re.finditer pattern content))
    credential_patterns.

(** The docstring rule as the specification words it: modules, classes
    and functions without a docstring are reported, except functions
    whose name starts with a single underscore. *)
Definition single_leading_underscore (name : string) : bool :=
  String.prefix "_" name && negb (String.prefix "__" name).

Definition spec_undocumented (n : node) : bool :=
  match body_of n with
  | Some body =>
      negb (starts_with_docstring body)
      && negb match n with
              | FunctionDef name _ _ _ _ => single_leading_underscore name
              | _ => false
              end
  | None => false
  end.

Definition docstring_issue_at (l : list Issue) (lineno : option Z) : Prop :=
  exists i,
    In i l /\ category i = Documentation /\ severity i = Medium
    /\ line i = lineno.

Definition spec_docstring_rule (file_path : string) (tree : node) : Prop :=
  forall s,
    exists s',
      _check_docstrings file_path tree s = Return tt s'
      /\ forall n,
           In n (walk tree) -> spec_undocumented n = true ->
           docstring_issue_at (issues (self s')) (lineno_of n).

(** The docstring rule as the code applies it: classes and functions
    without a docstring, except functions whose name starts with an
    underscore, however many. *)
Definition undocumented (n : node) : bool :=
  match n with
  | FunctionDef name _ _ body _ =>
      negb (starts_with_docstring body) && negb (String.prefix "_" name)
  | ClassDef _ _ _ body _ => negb (starts_with_docstring body)
  | _ => false
  end.

Definition docstring_issue (file_path : string) (n : node) : Issue :=
  mkIssue file_path (lineno_of n) Documentation Medium
    ("Missing docstring for "
     ++ (if is_FunctionDef n then "function" else "class") ++ " '"
     ++ match name_of n with Some name => name | None => "module" end
     ++ "'")%string.

(** The file [load_template] opens. *)
Definition template_file (r : CodeReviewer) (template_name : string)
    : string :=
  Text.path_join (template_path r) (template_name ++ ".md")%string.

(** Reading the template file gives its content or fails with
    [FileNotFoundError]. *)
Definition template_read_or_missing (w : World) (r : CodeReviewer)
    (template_name : string) : Prop :=
  match open_read w (template_file r template_name) with
  | ReadOk _ => True
  | ReadRaises e => is_FileNotFoundError e = true
  end.

(** The template loads as a map with at least one section. *)
Definition template_present (w : World) (r : CodeReviewer)
    (template_name : string) : Prop :=
  exists content,
    open_read w (template_file r template_name) = ReadOk content
    /\ Dict.truthy (_parse_template content) = true.

(** What [review_file] hands back, when it returns. *)
Definition returned {A : Type} (o : outcome A) : option A :=
  match o with
  | Return a _ => Some a
  | Raise _ _ => None
  end.

Definition final_state {A : Type} (o : outcome A) : state :=
  match o with
  | Return _ s | Raise _ s => s
  end.

(** "A missing template does not prevent checks from executing":
    the issues returned without the template are those returned with it. *)
Definition missing_template_changes_nothing (w_missing w_present : World)
    (file_path template_name : string) (s : state) : Prop :=
  returned (review_file w_missing file_path template_name s)
  = returned (review_file w_present file_path template_name s).

(** "review_file returns a list and never raises." *)
Definition review_file_returns (w : World)
    (file_path template_name : string) (s : state) : Prop :=
  exists l s', review_file w file_path template_name s = Return l s'.

End Spec.

(** ** Worlds and inputs the theorems are evaluated at *)

Module Inputs.
Import Ast ReviewLogic.

Definition general_template : string :=
  ("# General" ++ Text.nl ++ "## Readability" ++ Text.nl
   ++ "- [ ] Names are clear")%string.

Definition fresh : state := mkState (init "templates") [].

(** A one-line module: [password = <quote>hunter2<quote>]. *)
Definition password_line : string :=
  ("password = " ++ String Text.dquote "hunter2" ++ String Text.dquote ""
   ++ Text.nl)%string.

(** [Assign(targets=[Name(ctx=Store())], value=Constant)] *)
Definition password_assign : node :=
  Other [Other [Other []]; Str "hunter2"].

Definition password_module : node := Module [password_assign].

(** The same assignment on line 2, below a module docstring. *)
Definition documented_password : string :=
  ("'''Settings.'''" ++ Text.nl ++ password_line)%string.

Definition documented_password_module : node :=
  Module [Expr (Str "Settings."); password_assign].

(** A documented module with a class whose [__init__] has no docstring. *)
Definition dunder_module : node :=
  Module
    [Expr (Str "Users.");
     ClassDef "Users" 2 [] 
       [Expr (Str "A set of users.");
        FunctionDef "__init__" 4 [Other [Other []]] [Other []] []] []].

(** A text file with one line that ends in a blank. *)
Definition notes : string := ("to do " ++ Text.nl ++ "done")%string.

Definition files (path : string) : read_result :=
  if String.eqb path "templates/general.md" then ReadOk general_template
  else if String.eqb path "settings.py" then ReadOk password_line
  else if String.eqb path "documented.py" then ReadOk documented_password
  else if String.eqb path "notes.txt" then ReadOk notes
  else ReadRaises (FileNotFoundError "[Errno 2] No such file or directory").

Definition parser (content : string) : parse_result :=
  if String.eqb content password_line then Parsed password_module
  else if String.eqb content documented_password
       then Parsed documented_password_module
  else SyntaxError (Some 1) "invalid syntax".

(** The template directory holds [general.md]. *)
Definition world : World := mkWorld files parser.

(** The same files, the template directory empty. *)
Definition world_without_template : World :=
  mkWorld
    (fun path =>
       if String.eqb path "templates/general.md"
       then ReadRaises (FileNotFoundError "[Errno 2] No such file or directory")
       else files path)
    parser.

(** The same files, [general.md] with other sections. *)
Definition world_with_other_template : World :=
  mkWorld
    (fun path =>
       if String.eqb path "templates/general.md"
       then ReadOk ("## Security" ++ Text.nl
                    ++ "- [ ] No secrets in the code")%string
       else files path)
    parser.

(** The same files, [general.md] not readable by the process. *)
Definition world_with_locked_template : World :=
  mkWorld
    (fun path =>
       if String.eqb path "templates/general.md"
       then ReadRaises
              (OtherException "PermissionError" "[Errno 13] Permission denied")
       else files path)
    parser.

(** A function with three branching statements and no and-chain. *)
Definition three_branches : node :=
  FunctionDef "scan" 1 [Other []]
    [For [Other []; If [Other []]]; While [BoolOp Or [Other []; Other []]]]
    [].

(** A documented module whose class and whose method [add] have no
    docstring; [__init__] and [_find] have none either. *)
Definition undocumented_class_module : node :=
  Module
    [Expr (Str "Users.");
     ClassDef "Users" 2 []
       [FunctionDef "__init__" 3 [Other [Other []]] [Other []] [];
        FunctionDef "add" 5 [Other [Other []]] [Other []] [];
        FunctionDef "_find" 7 [Other [Other []]] [Other []] []] []].

(** The reviewer after [documented.py] was reviewed. *)
Definition after_documented : outcome (list Issue) :=
  review_file world "documented.py" "general" fresh.

End Inputs.

(** ** What the rules find, as lists *)

Module Findings.
Import Ast ReviewLogic Spec.

(** The findings of the console rule on [content]. *)
Definition console_findings (file_path content : string) : list Issue :=
  map (fun start =>
         mkIssue file_path (Some (line_at content start)) Debug Low
           "console.log statement should be removed in production code")
    (Re.finditer (Re.literal false "console.log(") content).

(** The findings of the line-length rule. *)
Definition line_length_findings (file_path content : string) : list Issue :=
  flat_map
    (fun '(i, l) =>
       let len := Z.of_nat (String.length l) in
       if 100 <? len then
         [mkIssue file_path (Some (i + 1)) Style Low
            ("Line exceeds " ++ Text.str_of_int 100
             ++ " characters (length: " ++ Text.str_of_int len ++ ")")%string]
       else [])
    (enumerate_from 0 (Text.split Text.newline content)).

(** The findings of the trailing-whitespace rule. *)
Definition trailing_space (l : string) : bool :=
  match Text.last_char l with
  | Some c => Text.is_space c
  | None => false
  end.

Definition trailing_whitespace_findings (file_path content : string)
    : list Issue :=
  flat_map
    (fun '(i, l) =>
       if trailing_space l then
         [mkIssue file_path (Some (i + 1)) Style Low
            "Line has trailing whitespace"]
       else [])
    (enumerate_from 0 (Text.split Text.newline content)).

(** The findings of the naming rule on one node, and on a tree. *)
Definition naming_finding (file_path : string) (n : node) : list Issue :=
  match n with
  | ClassDef name lineno _ _ _ =>
      if negb (Re.matches camel_case name) then
        [mkIssue file_path (Some lineno) Style Low
           ("Class '" ++ name
            ++ "' doesn't follow CamelCase naming convention")%string]
      else []
  | FunctionDef name lineno _ _ _ =>
      if negb (String.prefix "__" name) && negb (Re.matches snake_case name)
      then
        [mkIssue file_path (Some lineno) Style Low
           ("Function '" ++ name
            ++ "' doesn't follow snake_case naming convention")%string]
      else []
  | _ => []
  end.

Definition naming_findings (file_path : string) (tree : node) : list Issue :=
  flat_map (naming_finding file_path) (walk tree).

(** The findings of the complexity rule. *)
Definition complexity_finding (file_path : string) (n : node) : list Issue :=
  match n with
  | FunctionDef name lineno _ _ _ =>
      if 10 <? _calculate_complexity n then
        [mkIssue file_path (Some lineno) Maintainability Medium
           ("Function '" ++ name ++ "' has high cyclomatic complexity ("
            ++ Text.str_of_int (_calculate_complexity n) ++ ")")%string]
      else []
  | _ => []
  end.

Definition complexity_findings (file_path : string) (tree : node)
    : list Issue :=
  flat_map (complexity_finding file_path) (walk tree).

Definition docstring_findings (file_path : string) (tree : node)
    : list Issue :=
  map (docstring_issue file_path) (filter undocumented (walk tree)).

(** The statistics after a review that found [l]. *)
Definition stats_after (st : Stats) (l : list Issue) : Stats :=
  mkStats (files_reviewed st + 1)
    (issues_found st + Z.of_nat (List.length l))
    (count_issue_types l (issue_types st)).

(** The state after a review that ran to its end and found [l]. *)
Definition reviewed (l : list Issue) (s : state) : state :=
  mkState
    (mkReviewer (template_path (self s)) l (stats_after (stats (self s)) l))
    (log s).

(** [sum(d.values())] of a dictionary of counts. *)
Definition sum_counts (d : Dict.t Z) : Z := fold_right Z.add 0 (Dict.values d).

(** [issues_found] is the sum of the per-category counts. *)
Definition stats_consistent (st : Stats) : Prop :=
  issues_found st = sum_counts (issue_types st).

(** Two states that agree on what a review can read: the template
    directory and the issues held. *)
Definition same_view (s1 s2 : state) : Prop :=
  template_path (self s1) = template_path (self s2)
  /\ issues (self s1) = issues (self s2).

(** Two outcomes with the same result, or the same exception, in states
    with the same view. *)
Definition same_outcome {A : Type} (o1 o2 : outcome A) : Prop :=
  match o1, o2 with
  | Return a1 s1, Return a2 s2 => a1 = a2 /\ same_view s1 s2
  | Raise e1 s1, Raise e2 s2 => e1 = e2 /\ same_view s1 s2
  | _, _ => False
  end.

End Findings.

(** ** The command-line driver of review_logic.py *)

Module Driver.
Import Ast ReviewLogic.
Local Open Scope review_scope.

(** What [main] asks the file system besides reading files. *)
Record FileSystem : Type := mkFileSystem {
  world : World;
  isfile : string -> bool;
  isdir : string -> bool;
  os_walk : string -> list (string * list string)
}.

(** [s.endswith(suffix)] *)
Definition ends_with (suffix s : string) : bool :=
  (String.length suffix <=? String.length s)%nat
  && String.eqb (Text.drop (String.length s - String.length suffix) s) suffix.

(** [file.endswith(('.py', '.js', '.ts', '.html', '.css'))] *)
Definition reviewable (file : string) : bool :=
  existsb (fun suffix => ends_with suffix file)
    [".py"; ".js"; ".ts"; ".html"; ".css"].

(** The files the directory branch of [main] reviews, in the order of
    [os.walk]. *)
Definition files_to_review (fs : FileSystem) (path : string) : list string :=
  flat_map
    (fun '(root, files) =>
       map (Text.path_join root) (filter reviewable files))
    (os_walk fs path).

(** The loop of the directory branch: every result is dropped. *)
Definition review_files (w : World) (paths : list string)
    (template_name : string) : M unit :=
  foreach paths (fun file_path =>
    review_file w file_path template_name ;; ret tt).

(** [main] from the parsed arguments up to the report it prints or
    writes; [None] when the path is neither a file nor a directory. *)
Definition main_report (fs : FileSystem) (path template_name : string)
    : M (option string) :=
  if isfile fs path then
    issues <- review_file (world fs) path template_name ;;
    r <- get_self ;;
    ret (Some (generate_review_report r (Some issues)))
  else if isdir fs path then
    review_files (world fs) (files_to_review fs path) template_name ;;
    r <- get_self ;;
    ret (Some (generate_review_report r None))
  else
    logger_error ("Path not found: " ++ path)%string ;;
    ret None.

End Driver.

(** ** Computations that only append issues *)

Module Effects.
Import Ast ReviewLogic Spec.

(** Whatever [m] does, by returning or by raising, it leaves the state
    it started from with some issues appended to [self.issues]. *)
Definition appends_only {A : Type} (m : M A) : Prop :=
  forall s, exists l, final_state (m s) = add_issues l s.

(** The state in which [review_file] loads the template: [self.issues]
    emptied, everything else as it was. *)
Definition emptied (s : state) : state :=
  mkState (mkReviewer (template_path (self s)) [] (stats (self s))) (log s).

(** [m] cannot tell apart two states with the same view, and leaves
    them with the same view. *)
Definition respects {A : Type} (m : M A) : Prop :=
  forall s1 s2, Findings.same_view s1 s2 ->
    Findings.same_outcome (m s1) (m s2).

(** The choice of rules by file extension, as [review_file] makes it. *)
Definition dispatch (w : World) (file_path content : string)
    (template : Dict.t (list string)) : M unit :=
  let file_ext := Text.lower (Text.splitext_ext file_path) in
  if String.eqb file_ext ".py" then
    _review_python_file w file_path content template
  else if String.eqb file_ext ".js" || String.eqb file_ext ".ts" then
    _review_javascript_file file_path content template
  else
    _review_generic_file file_path content template.

End Effects.

(** ** Plain readings of the text rules *)

Module Reading.
Import Ast ReviewLogic Spec Findings.

(** The lines of a file or of a template. *)
Definition lines_of (content : string) : list string :=
  Text.split Text.newline content.

(** A template line that opens a section, and the section it names. *)
Definition is_header (l : string) : bool := String.prefix "## " l.
Definition header_name (l : string) : string := Text.strip (Text.drop 3 l).

(** Every character of [s] is in the class [p]. *)
Fixpoint all_chars (p : ascii -> bool) (s : string) : bool :=
  match s with
  | EmptyString => true
  | String c s' => p c && all_chars p s'
  end.

(** An upper-case ASCII letter, then ASCII letters and digits. *)
Definition camel_cased (name : string) : bool :=
  match name with
  | String c rest => Text.is_upper c && all_chars is_alnum rest
  | EmptyString => false
  end.

(** A lower-case ASCII letter, then lower-case letters, digits and
    underscores. *)
Definition snake_cased (name : string) : bool :=
  match name with
  | String c rest =>
      Text.is_lower c
      && all_chars
           (fun x => Text.is_lower x || Text.is_digit x || Ascii.eqb x "_")
           rest
  | EmptyString => false
  end.

(** The issues of one file, in the order of the list. *)
Definition issues_of_file (f : string) (l : list Issue) : list Issue :=
  filter (fun i => String.eqb (file i) f) l.

End Reading.

(** ** Recorders no snapshot was taken of, and the summary *)

Module Recorder.
Import Metrics Scenario.

(** The per-file counters have the five keys they were created with. *)
Definition file_counters_intact (m : Metrics.t) : Prop :=
  Forall (fun e => Dict.keys (fm_issues (snd e)) = builtin_keys)
    (file_metrics m).

(** No snapshot was taken: every issues dictionary, global or per
    file, has the five built-in keys only. *)
Definition well_formed (m : Metrics.t) : Prop :=
  unqueried m /\ file_counters_intact m.

(** The counter an issue type is counted under. *)
Definition effective_type (issue_type : string) : string :=
  if existsb (String.eqb issue_type) builtin_keys then issue_type
  else "other".

(** [sum(file_data["issues"].values())] *)
Definition total_issues (fm : FileMetric) : Z :=
  fold_left Z.add (Dict.values (fm_issues fm)) 0%Z.

(** The list [file_issues] that [print_summary] builds: the files with
    at least one issue, with their totals, in dictionary order. *)
Definition file_issues (m : Metrics.t) : list (string * Z) :=
  flat_map
    (fun '(filename, fm) =>
       if (0 <? total_issues fm)%Z then [(filename, total_issues fm)]
       else [])
    (file_metrics m).

(** [sorted(l, key=lambda x: x[1], reverse=True)]: by decreasing count,
    entries of equal count in their original order. *)
Fixpoint insert_by_count (x : string * Z) (l : list (string * Z))
    : list (string * Z) :=
  match l with
  | [] => [x]
  | y :: l' =>
      if (snd x <? snd y)%Z then y :: insert_by_count x l' else x :: y :: l'
  end.

Definition sorted_by_count (l : list (string * Z)) : list (string * Z) :=
  fold_right insert_by_count [] l.

(** "Not fewer issues than": the order of the summary. *)
Definition at_least (x y : string * Z) : Prop := (snd y <= snd x)%Z.

(** The entries [print_summary] lists under "Top files by issue
    count". *)
Definition top_files (m : Metrics.t) : list (string * Z) :=
  firstn 5 (sorted_by_count (file_issues m)).

End Recorder.

(** ** More inputs *)

Module Cases.
Import Ast ReviewLogic Metrics.

(** A python file that does not parse, and a script. *)
Definition broken : string := ("def f(:" ++ Text.nl)%string.

Definition script : string :=
  ("console.log(1)" ++ Text.nl ++ "var token = 'abc'" ++ Text.nl)%string.

Definition files (path : string) : read_result :=
  if String.eqb path "broken.py" then ReadOk broken
  else if String.eqb path "app.js" then ReadOk script
  else if String.eqb path "templates/plain.md"
       then ReadOk ("Checklist" ++ Text.nl ++ "- [ ] Tests pass")%string
  else Inputs.files path.

Definition parser (content : string) : parse_result :=
  if String.eqb content broken
  then SyntaxError (Some 1) "invalid syntax (<unknown>, line 1)"
  else Inputs.parser content.

Definition world : World := mkWorld files parser.

Definition file_system : Driver.FileSystem :=
  Driver.mkFileSystem world
    (fun path => String.eqb path "settings.py")
    (fun path => String.eqb path ".")
    (fun path =>
       if String.eqb path "."
       then [(".", ["settings.py"; "notes.txt"; "app.js"])]
       else []).

(** A reviewer that has already reviewed a file. *)
Definition used : state := Spec.final_state Inputs.after_documented.

(** Two files recorded, two issues against the first, one against the
    second. *)
Definition two_files : Metrics.t :=
  match
    Scenario.record_issues
      (record_file_review (record_file_review (init 0) "a.py" 10 10)
         "b.py" 20 40)
      [("style", "a.py", Some 3, None); ("naming", "a.py", None, None);
       ("logic", "b.py", Some 7, Some "off by one")]
  with
  | Ok m => m
  | KeyError _ m => m
  end.

End Cases.

(** ** Where exact arithmetic is what Python computes *)

Module Doubles.
Import Metrics.
Local Open Scope Q_scope.

(** A rational that is a finite IEEE 754 double: a significand below
    [2^53] times a power of two between [2^-1074] and [2^971]. *)
Definition is_double (q : Q) : Prop :=
  exists m e : Z,
    (Z.abs m < 2 ^ 53)%Z /\ (-1074 <= e <= 971)%Z
    /\ q == inject_Z m * 2 ^ e.

(** [a / b] on ints returns: the quotient is well inside the range of
    the doubles, so no [OverflowError] is raised. *)
Definition quotient_in_range (a b : Q) : Prop :=
  Qabs a <= Qabs b * 2 ^ 1023.

(** [a / b * k] is computed without rounding: the quotient and the
    product are doubles.  Python's [int / int] is the double nearest
    to the quotient and [float * int] the double nearest to the
    product, so under this condition the result is [ratio_times a b k]. *)
Definition exact_ratio_times (a b k : Q) : Prop :=
  is_double (a / b) /\ is_double (ratio_times a b k).

(** A whole number, as every counter of a recorder is. *)
Definition integral (q : Q) : Prop := exists n : Z, q == inject_Z n.

Definition integral_counters (m : Metrics.t) : Prop :=
  Forall (fun e => integral (snd e)) (issues m).

(** No division of [get_metrics] raises: the two coverage quotients
    and the issue density are in range. *)
Definition snapshot_in_range (m : Metrics.t) : Prop :=
  let c := coverage m in
  ((0 < total_files c)%Z ->
   quotient_in_range (inject_Z (files_reviewed c)) (inject_Z (total_files c)))
  /\ ((0 < total_lines c)%Z ->
      quotient_in_range (inject_Z (lines_reviewed c))
        (inject_Z (total_lines c)))
  /\ ((0 < lines_reviewed c)%Z ->
      quotient_in_range (five_counters (issues m))
        (inject_Z (lines_reviewed c))).

(** One file of 16 lines out of 64 in 4 files, two issues against it. *)
Definition sixteen_lines : Metrics.t :=
  match
    Scenario.record_issues
      (record_file_review (set_total_codebase_size (init 0) 4 64)
         "a.py" 16 16)
      [("style", "a.py", Some 3%Z, None);
       ("logic", "a.py", Some 7%Z, Some "off by one")]
  with
  | Ok m => m
  | KeyError _ m => m
  end.

End Doubles.

(** ** The rule for modules without docstring, as first stated *)

Module Stated.
Import Ast ReviewLogic.

(** "For every valid [.py] content whose module lacks a docstring,
    [review_file] returns the empty list and records zero issues",
    with no condition on the template. *)
Definition undocumented_module_returns_nothing (w : World)
    (file_path template_name content : string) (body : list node)
    (s : state) : Prop :=
  Text.lower (Text.splitext_ext file_path) = ".py" ->
  open_read w file_path = ReadOk content ->
  ast_parse w content = Parsed (Module body) ->
  starts_with_docstring body = false ->
  exists s',
    review_file w file_path template_name s = Return [] s'
    /\ stats (self s') = stats (self s).

End Stated.

(** * Theorems *)

(** ** Dictionaries *)

Module DictFacts.
Section WithValues.
Context {V : Type}.
Implicit Types (d : Dict.t V) (k : string) (v : V).

Lemma get_set_same d k v : Dict.get (Dict.set d k v) k = Some v.
Proof.
  induction d as [|[k' v'] d IH]; simpl.
  - now rewrite String.eqb_refl.
  - destruct (String.eqb k k') eqn:E; simpl; rewrite E; auto.
Qed.

Lemma get_set_other d k k' v :
  k <> k' -> Dict.get (Dict.set d k v) k' = Dict.get d k'.
Proof.
  intros Hne. induction d as [|[k0 v0] d IH]; simpl.
  - destruct (String.eqb k' k) eqn:E; auto.
    apply String.eqb_eq in E. congruence.
  - destruct (String.eqb k k0) eqn:E; simpl.
    + apply String.eqb_eq in E. subst k0.
      destruct (String.eqb k' k) eqn:E'; auto.
      apply String.eqb_eq in E'. congruence.
    + now rewrite IH.
Qed.

Lemma keys_set_present d k v :
  Dict.mem d k = true -> Dict.keys (Dict.set d k v) = Dict.keys d.
Proof.
  unfold Dict.mem, Dict.keys.
  induction d as [|[k' v'] d IH]; simpl; [discriminate|].
  destruct (String.eqb k k') eqn:E; simpl; auto.
  intros H. now rewrite IH.
Qed.

Lemma mem_get d k : Dict.mem d k = true <-> exists v, Dict.get d k = Some v.
Proof.
  unfold Dict.mem. destruct (Dict.get d k); split; eauto; try discriminate.
  intros [v H]; discriminate.
Qed.
End WithValues.
End DictFacts.

(** ** The metrics recorder *)

Module MetricsFacts.
Import Metrics Scenario.
Local Open Scope Q_scope.

(** A dictionary with the five built-in keys, spelled out. *)
Lemma builtin_keys_inv (d : Dict.t Q) :
  Dict.keys d = builtin_keys ->
  exists a b c e f,
    d = [("security", a); ("performance", b); ("style", c);
         ("logic", e); ("other", f)].
Proof.
  unfold Dict.keys, builtin_keys. intros H.
  repeat (destruct d as [|[? ?] d]; simpl in H; try discriminate).
  injection H as -> -> -> -> ->. now eexists _, _, _, _, _.
Qed.

(** The recording operations keep a recorder unqueried. *)
Lemma unqueried_init now : unqueried (init now).
Proof. reflexivity. Qed.

Lemma unqueried_record_file_review m f lines total :
  unqueried m -> unqueried (record_file_review m f lines total).
Proof. auto. Qed.

Lemma unqueried_set_total_codebase_size m files lines :
  unqueried m -> unqueried (set_total_codebase_size m files lines).
Proof. auto. Qed.

Lemma unqueried_timed m category filename elapsed :
  unqueried m -> unqueried (timed m category filename elapsed).
Proof.
  unfold unqueried, timed. intros H.
  destruct filename as [f|]; simpl; auto.
  destruct (negb (String.eqb f "")); simpl; auto.
  destruct (Dict.get _ f); simpl; auto.
Qed.

Lemma unqueried_record_issue m issue_type filename line_number description m' :
  unqueried m ->
  record_issue m issue_type filename line_number description = Ok m' ->
  unqueried m'.
Proof.
  unfold unqueried, record_issue. intros H.
  set (ty := if Dict.mem (issues m) issue_type then issue_type else "other").
  assert (Hmem : Dict.mem (issues m) ty = true).
  { subst ty. destruct (Dict.mem (issues m) issue_type) eqn:E; auto.
    destruct (builtin_keys_inv _ H) as (a & b & c & e & f & ->). reflexivity. }
  destruct (Dict.get (issues m) ty) eqn:G; [|discriminate].
  assert (K : Dict.keys (Dict.set (issues m) ty (q + 1)) = builtin_keys)
    by (rewrite DictFacts.keys_set_present; auto).
  simpl. destruct (Dict.get (file_metrics m) filename) as [fm|].
  - destruct (Dict.get (fm_issues fm) ty); [|discriminate].
    intros [= <-]. exact K.
  - intros [= <-]. exact K.
Qed.

(** On an unqueried recorder a built-in issue type never raises, and an
    unknown one is counted as [other]. *)
Lemma record_issue_unknown_is_other m issue_type line_number description :
  unqueried m ->
  ~ In issue_type builtin_keys ->
  record_issue m issue_type "" line_number description
  = record_issue m "other" "" line_number description.
Proof.
  unfold unqueried. intros H Hn.
  destruct (builtin_keys_inv _ H) as (a & b & c & e & f & Hd).
  unfold record_issue. rewrite Hd.
  assert (Dict.mem
            [("security", a); ("performance", b); ("style", c);
             ("logic", e); ("other", f)] issue_type = false) as ->.
  { assert (Hk : forall k, In k builtin_keys ->
                          String.eqb issue_type k = false).
    { intros k Hk. apply String.eqb_neq. congruence. }
    unfold Dict.mem. simpl.
    rewrite !Hk by (simpl; tauto). reflexivity. }
  reflexivity.
Qed.

(** The first snapshot of a recorder reports the sum of the five
    counters, and the density computed from it. *)
Lemma first_snapshot_total m now :
  unqueried m ->
  let s := snd (get_metrics m now) in
  reported_total s == five_counters (issues m)
  /\ five_counters (s_issues s) == five_counters (issues m)
  /\ reported_density s
     == (if (0 <? lines_reviewed (coverage m))%Z
         then ratio_times (five_counters (issues m))
                (inject_Z (lines_reviewed (coverage m))) 1000
         else 0).
Proof.
  intros H. destruct (builtin_keys_inv _ H) as (a & b & c & e & f & Hd).
  unfold reported_total, reported_density, get_metrics, five_counters,
    lookup0, sum_values. simpl. rewrite Hd. simpl.
  split; [|split].
  - ring.
  - reflexivity.
  - destruct (0 <? lines_reviewed (coverage m))%Z; [|reflexivity].
    unfold ratio_times. apply Qmult_comp; [|reflexivity].
    apply Qmult_comp; [|reflexivity]. ring.
Qed.

(** A snapshot taken right after another one adds the previously
    reported total and density to the five counters. *)
Lemma second_snapshot_total m now1 now2 :
  unqueried m ->
  let r1 := get_metrics m now1 in
  let s2 := snd (get_metrics (fst r1) now2) in
  reported_total s2
  == five_counters (issues m) + reported_total (snd r1)
     + reported_density (snd r1).
Proof.
  intros H. destruct (builtin_keys_inv _ H) as (a & b & c & e & f & Hd).
  unfold reported_total, reported_density, get_metrics, five_counters,
    lookup0, sum_values. simpl. rewrite Hd. simpl. ring.
Qed.

(** The figures of [test_coverage_percentage_calculation]. *)
Example coverage_percentages :
  let m := record_file_review
             (record_file_review (set_total_codebase_size (init 0) 10 1000)
                "test1.py" 75 100)
             "test2.py" 150 200 in
  let c := s_coverage (snd (get_metrics m 1)) in
  (exists p, file_coverage_percent c = Some p /\ p == 20)
  /\ (exists p, line_coverage_percent c = Some p /\ p == 45 # 2).
Proof. split; eexists; split; vm_compute; reflexivity. Qed.

(** What [get_metrics] does leave alone in the recorder. *)
Lemma get_metrics_frame m now :
  let m' := fst (get_metrics m now) in
  files_reviewed (coverage m') = files_reviewed (coverage m)
  /\ lines_reviewed (coverage m') = lines_reviewed (coverage m)
  /\ total_files (coverage m') = total_files (coverage m)
  /\ total_lines (coverage m') = total_lines (coverage m)
  /\ timing m' = timing m
  /\ file_metrics m' = file_metrics m
  /\ review_start_time m' = review_start_time m.
Proof. simpl. repeat split. Qed.

End MetricsFacts.


Module MetricsClaims.
Import Metrics Scenario.
Local Open Scope Q_scope.

(** C1.  The reported [issues.total] is meant to be the sum of the five
    built-in counters and [issues_per_1000_lines] that total per 1000
    reviewed lines, at every snapshot.  On the recorder of
    [test_issues_per_line_calculation] (1000 lines, five security
    issues) the first snapshot reports 5 and 5; the second one, taken
    with nothing recorded in between, sums the two derived keys the
    first one left in the stored dictionary: it reports total 15 and
    density 15 while the five counters still add up to 5. *)
Theorem second_snapshot_total_includes_derived_keys :
  exists m,
    five_security_issues = Ok m
    /\ let r1 := get_metrics m 1 in
       let r2 := get_metrics (fst r1) 2 in
       (reported_total (snd r1) == 5 /\ reported_density (snd r1) == 5)
       /\ five_counters (s_issues (snd r2)) == 5
       /\ reported_total (snd r2) == 15
       /\ reported_density (snd r2) == 15
       /\ ~ reported_total (snd r2) == five_counters (s_issues (snd r2)).
Proof.
  eexists. split; [vm_compute; reflexivity|].
  vm_compute. repeat split; try reflexivity. discriminate.
Qed.

(** C2.  [get_metrics] is meant to be a pure query.  On the same
    recorder it is not: the stored issues dictionary gains the keys
    [total] and [issues_per_1000_lines], the stored coverage dictionary
    gains its two percentages, and the second of two consecutive
    snapshots reports another issue total than the first (the four
    coverage counters, the timing samples and the file metrics are
    left alone). *)
Theorem get_metrics_writes_to_the_recorder :
  exists m,
    five_security_issues = Ok m
    /\ let r1 := get_metrics m 1 in
       let r2 := get_metrics (fst r1) 2 in
       Dict.keys (issues m) = builtin_keys
       /\ Dict.keys (issues (fst r1))
          = builtin_keys ++ ["total"; "issues_per_1000_lines"]
       /\ file_coverage_percent (coverage m) = None
       /\ file_coverage_percent (coverage (fst r1)) = Some 0
       /\ Dict.mem (issues m) "total" <> Dict.mem (issues (fst r1)) "total"
       /\ s_coverage (snd r2) = s_coverage (snd r1)
       /\ ~ reported_total (snd r2) == reported_total (snd r1).
Proof.
  eexists. split; [vm_compute; reflexivity|].
  vm_compute. repeat split; try reflexivity; discriminate.
Qed.




End MetricsClaims.

(** ** Syntax trees and their traversal *)


(** ** Syntax trees and their traversal *)

Module AstFacts.
Import Ast.

Lemma sizes_fix (l : list node) :
  (fix sizes (l : list node) : nat :=
     match l with
     | [] => O
     | x :: l' => (size x + sizes l')%nat
     end) l = sizes l.
Proof. induction l; simpl; congruence. Qed.

Lemma sizes_app (l1 l2 : list node) :
  sizes (l1 ++ l2) = (sizes l1 + sizes l2)%nat.
Proof. induction l1; simpl; lia. Qed.

(** A node and its children. *)
Lemma size_children (n : node) : size n = S (sizes (iter_child_nodes n)).
Proof.
  destruct n; simpl; rewrite ?sizes_fix, ?sizes_app; try reflexivity; lia.
Qed.

Lemma size_pos (n : node) : (1 <= size n)%nat.
Proof. rewrite size_children. lia. Qed.

Section Sums.
Variable weight : node -> Z.

Lemma subtree_sums_fix (l : list node) :
  (fix sums (l : list node) : Z :=
     match l with
     | [] => 0
     | x :: l' => subtree_sum weight x + sums l'
     end) l = subtree_sums weight l.
Proof. induction l; simpl; congruence. Qed.

Lemma subtree_sums_app (l1 l2 : list node) :
  subtree_sums weight (l1 ++ l2)
  = subtree_sums weight l1 + subtree_sums weight l2.
Proof. induction l1; simpl; lia. Qed.

Lemma subtree_sum_children (n : node) :
  subtree_sum weight n
  = weight n + subtree_sums weight (iter_child_nodes n).
Proof.
  destruct n; simpl; unfold op_node; simpl;
    rewrite ?subtree_sums_fix, ?subtree_sums_app; try reflexivity; lia.
Qed.

(** The queue traversal visits every node of the queued subtrees
    exactly once, provided it is given a step per node. *)
Lemma walk_queue_total (fuel : nat) :
  forall todo,
    (sizes todo <= fuel)%nat ->
    Spec.total weight (walk_queue fuel todo) = subtree_sums weight todo.
Proof.
  induction fuel as [|fuel IH]; intros todo Hfuel.
  - destruct todo as [|n rest]; [reflexivity|].
    simpl in Hfuel. pose proof (size_pos n). lia.
  - destruct todo as [|n rest]; [reflexivity|].
    simpl in *. rewrite IH.
    + rewrite subtree_sums_app, (subtree_sum_children n). lia.
    + rewrite sizes_app. rewrite (size_children n) in Hfuel. lia.
Qed.

Lemma walk_total (n : node) :
  Spec.total weight (walk n) = subtree_sum weight n.
Proof.
  unfold walk. rewrite walk_queue_total; simpl; lia.
Qed.
End Sums.

(** More steps than nodes change nothing: [size] steps are enough. *)
Lemma walk_queue_fuel (fuel : nat) :
  forall todo,
    (sizes todo <= fuel)%nat ->
    walk_queue fuel todo = walk_queue (sizes todo) todo.
Proof.
  induction fuel as [|fuel IH]; intros todo Hfuel.
  - destruct todo as [|n rest]; [reflexivity|].
    simpl in Hfuel. pose proof (size_pos n). lia.
  - destruct todo as [|n rest]; [reflexivity|].
    simpl sizes in *. rewrite (size_children n) in *. simpl.
    f_equal. rewrite IH by (rewrite sizes_app; lia).
    f_equal. rewrite sizes_app. lia.
Qed.

Lemma walk_length (n : node) : List.length (walk n) = size n.
Proof.
  unfold walk.
  assert (H : forall fuel todo, (sizes todo <= fuel)%nat ->
                List.length (walk_queue fuel todo) = sizes todo).
  { induction fuel as [|fuel IH]; intros todo Hfuel.
    - destruct todo as [|x rest]; [reflexivity|].
      simpl in Hfuel. pose proof (size_pos x). lia.
    - destruct todo as [|x rest]; [reflexivity|].
      simpl in *. rewrite (size_children x) in *.
      rewrite IH; rewrite sizes_app; lia. }
  rewrite H; simpl; lia.
Qed.

(** The walk starts at the root. *)
Lemma walk_head (n : node) : exists rest, walk n = n :: rest.
Proof.
  unfold walk. rewrite size_children. simpl. eauto.
Qed.

(** Below a parsed node every node is a parsed inner node. *)
Lemma parsed_inner_fix (l : list node) :
  (fix all (l : list node) : bool :=
     match l with
     | [] => true
     | x :: l' => parsed_inner x && all l'
     end) l = forallb parsed_inner l.
Proof. induction l; simpl; congruence. Qed.

Lemma parsed_inner_children (n : node) :
  parsed_inner n = true -> forallb parsed_inner (iter_child_nodes n) = true.
Proof.
  destruct n; simpl; rewrite ?parsed_inner_fix, ?forallb_app;
    try discriminate; auto.
  - rewrite !andb_true_iff. tauto.
  - now intros ->.
Qed.

Lemma walk_queue_parsed (fuel : nat) :
  forall todo,
    forallb parsed_inner todo = true ->
    forallb parsed_inner (walk_queue fuel todo) = true.
Proof.
  induction fuel as [|fuel IH]; intros todo H; [reflexivity|].
  destruct todo as [|n rest]; [reflexivity|].
  simpl in *. apply andb_true_iff in H as [Hn Hrest].
  rewrite Hn, IH; auto.
  rewrite forallb_app, Hrest. now apply parsed_inner_children.
Qed.

Lemma walk_parsed_inner (n : node) :
  parsed_inner n = true -> forallb parsed_inner (walk n) = true.
Proof.
  intros H. apply walk_queue_parsed. simpl. now rewrite H.
Qed.

(** The walk of a parsed module: the module, then inner nodes only. *)
Lemma walk_parsed_module (body : list node) :
  parsed_module (Module body) = true ->
  exists rest,
    walk (Module body) = Module body :: rest
    /\ forallb parsed_inner rest = true.
Proof.
  simpl. intros H. unfold walk. rewrite size_children. simpl.
  eexists. split; [reflexivity|]. now apply walk_queue_parsed.
Qed.

End AstFacts.

(** ** The complexity calculator *)

Module ComplexityFacts.
Import Ast ReviewLogic Spec.

Lemma total_plus (f g : node -> Z) (l : list node) :
  total (fun x => f x + g x) l = total f l + total g l.
Proof. induction l; simpl; lia. Qed.

Lemma total_nonneg (f : node -> Z) (l : list node) :
  (forall x, In x l -> 0 <= f x) -> 0 <= total f l.
Proof.
  induction l as [|x l IH]; simpl; intros H; [lia|].
  pose proof (H x (or_introl eq_refl)).
  assert (0 <= total f l) by (apply IH; auto). lia.
Qed.

(** The loop of [_calculate_complexity] adds up the two weights. *)
Lemma complexity_step_weights (c : Z) (n : node) :
  complexity_step c n = c + (branch_weight n + and_chain_weight n).
Proof.
  destruct n as [| | | | | |[|] ?| | |]; simpl; lia.
Qed.

Lemma fold_complexity_step (l : list node) :
  forall c,
    fold_left complexity_step l c
    = c + total (fun x => branch_weight x + and_chain_weight x) l.
Proof.
  induction l as [|x l IH]; intros c; simpl; [lia|].
  rewrite IH, complexity_step_weights. lia.
Qed.

Lemma complexity_as_totals (n : node) :
  _calculate_complexity n
  = 1 + total branch_weight (walk n) + total and_chain_weight (walk n).
Proof.
  unfold _calculate_complexity.
  rewrite fold_complexity_step, total_plus. lia.
Qed.

Lemma and_chain_nonneg (n : node) : 0 <= and_chain n.
Proof. destruct n as [| | | | | |[|] ?| | |]; simpl; lia. Qed.

Lemma branch_weight_nonneg (n : node) : 0 <= branch_weight n.
Proof. destruct n; simpl; lia. Qed.

(** Without and-chains, the and-chain weights add up to nothing. *)
Lemma no_and_chain_no_extra (l : list node) :
  total and_chain l = 0 -> total and_chain_weight l = 0.
Proof.
  induction l as [|x l IH]; simpl; [reflexivity|].
  pose proof (and_chain_nonneg x) as Hx.
  pose proof (total_nonneg and_chain l (fun y _ => and_chain_nonneg y)) as Hl.
  intros Hsum. rewrite IH by lia.
  destruct x as [| | | | | |[|] ?| | |];
    cbn [and_chain and_chain_weight] in *; lia.
Qed.

(** With two operands or more per chain, no weight is negative. *)
Lemma and_chain_weight_parsed (n : node) :
  parsed_inner n = true -> 0 <= and_chain_weight n.
Proof.
  destruct n as [| | | | | |[|] vs| | |]; simpl; try lia.
Qed.

End ComplexityFacts.

Module ComplexityClaims.
Import Ast ReviewLogic Spec.

(** C7.  The computed complexity of a node is 1, plus the number of
    [if], [while] and [for] nodes in its subtree, plus [k - 1] for every
    and-chain of [k] operands in its subtree; without and-chains it is
    the number of branching statements plus 1; and on a subtree that
    comes from the parser (every boolean operation has two operands or
    more) it is at least 1. *)
Theorem complexity_matches_spec (f : node) :
  _calculate_complexity f = spec_complexity f
  /\ (and_chain_count f = 0 -> _calculate_complexity f = branch_count f + 1)
  /\ (parsed_inner f = true -> 1 <= _calculate_complexity f).
Proof.
  pose proof (ComplexityFacts.complexity_as_totals f) as Hc.
  unfold spec_complexity, branch_count, and_chain_count, and_chain_extra.
  rewrite <- !AstFacts.walk_total.
  split; [exact Hc|]. split.
  - intros H. rewrite Hc, (ComplexityFacts.no_and_chain_no_extra _ H). lia.
  - intros H. apply AstFacts.walk_parsed_inner in H.
    rewrite forallb_forall in H.
    assert (0 <= total branch_weight (walk f))
      by (apply ComplexityFacts.total_nonneg; intros;
          apply ComplexityFacts.branch_weight_nonneg).
    assert (0 <= total and_chain_weight (walk f))
      by (apply ComplexityFacts.total_nonneg; intros;
          apply ComplexityFacts.and_chain_weight_parsed; auto).
    lia.
Qed.

(** C7 at a function with a [for], an [if] inside it, and a [while]
    over an or-chain: complexity 4. *)
Lemma complexity_matches_spec_witness :
  and_chain_count Inputs.three_branches = 0
  /\ parsed_inner Inputs.three_branches = true
  /\ branch_count Inputs.three_branches = 3
  /\ _calculate_complexity Inputs.three_branches = 4
  /\ 1 <= _calculate_complexity Inputs.three_branches.
Proof.
  destruct (complexity_matches_spec Inputs.three_branches)
    as (_ & Hn & Hpos).
  assert (H0 : and_chain_count Inputs.three_branches = 0) by reflexivity.
  assert (Hp : parsed_inner Inputs.three_branches = true) by reflexivity.
  split; [exact H0|]. split; [exact Hp|]. split; [reflexivity|].
  split; [rewrite (Hn H0); reflexivity | exact (Hpos Hp)].
Defined.

End ComplexityClaims.

(** ** The rule engine *)

Module ReviewFacts.
Import Ast ReviewLogic Spec.
Local Open Scope review_scope.

Lemma add_issues_nil (s : state) : add_issues [] s = s.
Proof.
  destruct s as [[tp l st] lg]. unfold add_issues. simpl.
  now rewrite app_nil_r.
Qed.

Lemma add_issues_app (l1 l2 : list Issue) (s : state) :
  add_issues l2 (add_issues l1 s) = add_issues (l1 ++ l2) s.
Proof. unfold add_issues. simpl. now rewrite app_assoc. Qed.

Lemma append_issue_run (i : Issue) (s : state) :
  append_issue i s = Return tt (add_issues [i] s).
Proof. reflexivity. Qed.

Lemma ret_run (s : state) : ret tt s = Return tt (add_issues [] s).
Proof. now rewrite add_issues_nil. Qed.

(** A loop whose every turn only appends issues appends them all. *)
Lemma foreach_emits {A : Type} (l : list A) (body : A -> M unit)
    (emitted : A -> list Issue) :
  (forall x, In x l ->
     forall s, body x s = Return tt (add_issues (emitted x) s)) ->
  forall s,
    foreach l body s = Return tt (add_issues (flat_map emitted l) s).
Proof.
  induction l as [|x l IH]; intros Hbody s; simpl.
  - apply ret_run.
  - unfold bind. rewrite Hbody by (now left).
    rewrite IH by (intros; apply Hbody; now right).
    now rewrite add_issues_app.
Qed.

Lemma flat_map_filter {A B : Type} (keep : A -> bool) (f : A -> B)
    (l : list A) :
  flat_map (fun x => if keep x then [f x] else []) l = map f (filter keep l).
Proof.
  induction l as [|x l IH]; simpl; [reflexivity|].
  destruct (keep x); simpl; now rewrite IH.
Qed.

Lemma flat_map_singleton {A B : Type} (f : A -> B) (l : list A) :
  flat_map (fun x => [f x]) l = map f l.
Proof. induction l; simpl; congruence. Qed.

(** The credential rule never fails and appends its findings. *)
Lemma check_hardcoded_credentials_run (file_path content : string)
    (s : state) :
  _check_hardcoded_credentials file_path content s
  = Return tt (add_issues (credential_findings file_path content) s).
Proof.
  unfold _check_hardcoded_credentials, credential_findings.
  apply foreach_emits. intros pattern _ s'.
  rewrite (foreach_emits _ _ (fun start =>
             [mkIssue file_path (Some (line_at content start)) Security High
                "Potential hardcoded credential detected"])).
  - now rewrite flat_map_singleton.
  - intros. apply append_issue_run.
Qed.

(** One turn of the docstring loop on a node that is not a module
    without docstring. *)
Lemma check_docstrings_turn (file_path : string) (n : node) (s : state) :
  (is_Module n = true ->
   exists body, n = Module body /\ starts_with_docstring body = true) ->
  match body_of n with
  | Some body =>
      let has_docstring := starts_with_docstring body in
      let private :=
        match n with
        | FunctionDef name _ _ _ _ => String.prefix "_" name
        | _ => false
        end in
      if negb has_docstring && negb private then
        let node_type := if is_FunctionDef n then "function" else "class" in
        let node_name := match name_of n with
                         | Some name => name
                         | None => "module"
                         end in
        lineno <- getattr_lineno n ;;
        append_issue
          (mkIssue file_path (Some lineno) Documentation Medium
             ("Missing docstring for " ++ node_type ++ " '" ++ node_name
              ++ "'")%string)
      else ret tt
  | None => ret tt
  end s
  = Return tt
      (add_issues
         (if undocumented n then [docstring_issue file_path n] else []) s).
Proof.
  intros Hmod. destruct n; simpl; try apply ret_run.
  - destruct Hmod as (b & [= <-] & ->); [reflexivity|]. apply ret_run.
  - destruct (starts_with_docstring body), (String.prefix "_" name);
      simpl; try apply ret_run; reflexivity.
  - destruct (starts_with_docstring body); simpl;
      try apply ret_run; reflexivity.
Qed.

(** The docstring rule on a walk without undocumented module. *)
Lemma check_docstrings_run (file_path : string) (tree : node) (s : state) :
  (forall n, In n (walk tree) -> is_Module n = true ->
     exists body, n = Module body /\ starts_with_docstring body = true) ->
  _check_docstrings file_path tree s
  = Return tt
      (add_issues
         (map (docstring_issue file_path) (filter undocumented (walk tree)))
         s).
Proof.
  intros Hmod. unfold _check_docstrings.
  rewrite <- flat_map_filter. apply foreach_emits.
  intros n Hn s'. apply check_docstrings_turn. auto.
Qed.

(** The docstring rule on a module without docstring: the first turn
    of the loop reads [lineno] from the module and raises. *)
Lemma check_docstrings_raises (file_path : string) (body : list node)
    (s : state) :
  starts_with_docstring body = false ->
  _check_docstrings file_path (Module body) s
  = Raise (AttributeError "'Module' object has no attribute 'lineno'") s.
Proof.
  intros Hdoc. unfold _check_docstrings.
  destruct (AstFacts.walk_head (Module body)) as [rest ->].
  simpl. unfold bind. simpl. rewrite Hdoc. reflexivity.
Qed.

(** An inner node is not a module. *)
Lemma parsed_inner_not_module (n : node) :
  parsed_inner n = true -> is_Module n = false.
Proof. destruct n; simpl; auto; discriminate. Qed.

(** The three outcomes of [load_template]. *)
Lemma load_template_read (w : World) (name content : string) (s : state) :
  open_read w (template_file (self s) name) = ReadOk content ->
  load_template w name s = Return (_parse_template content) s.
Proof.
  unfold load_template, template_file, bind, get_self, try_except, read_file.
  intros ->. reflexivity.
Qed.

Lemma load_template_missing (w : World) (name msg : string) (s : state) :
  open_read w (template_file (self s) name)
  = ReadRaises (FileNotFoundError msg) ->
  load_template w name s
  = Return Dict.empty
      (mkState (self s)
         (log s ++ [("Template " ++ name ++ " not found at "
                     ++ template_file (self s) name)%string])).
Proof.
  unfold load_template, template_file, bind, get_self, try_except, read_file.
  intros ->. reflexivity.
Qed.

Lemma load_template_raises (w : World) (name : string) (e : exception)
    (s : state) :
  open_read w (template_file (self s) name) = ReadRaises e ->
  is_FileNotFoundError e = false ->
  load_template w name s = Raise e s.
Proof.
  unfold load_template, template_file, bind, get_self, try_except, read_file.
  intros -> He. unfold raise. now rewrite He.
Qed.

End ReviewFacts.

Module ReviewClaims.
Import Ast ReviewLogic Spec Inputs.
Local Open Scope review_scope.

(** The first two steps of [review_file]: [self.issues] is emptied and
    the template is loaded. *)
Ltac enter_review_file :=
  unfold review_file; unfold bind at 1;
  cbn [set_issues bind get_self put_self self log];
  unfold bind at 1; cbn [template_path stats].

(** C3.  A [.py] file that contains [password = <quoted literal>] is
    meant to yield one Security/High issue at the line of the
    assignment.  For the one-line file [settings.py] the credential
    rule finds the assignment at line 1, the docstring rule then raises
    on the module, which has no docstring, and [review_file] returns
    the empty list: the finding stays behind in [self.issues], the
    statistics do not move, the error is logged. *)
Theorem password_finding_dropped_without_module_docstring :
  credential_findings "settings.py" password_line
  = [mkIssue "settings.py" (Some 1) Security High
       "Potential hardcoded credential detected"]
  /\ review_file world "settings.py" "general" fresh
     = Return []
         (mkState
            (mkReviewer "templates"
               [mkIssue "settings.py" (Some 1) Security High
                  "Potential hardcoded credential detected"]
               (mkStats 0 0 []))
            ["Error reviewing file settings.py: 'Module' object has no attribute 'lineno'"]).
Proof. split; vm_compute; reflexivity. Qed.

(** The same assignment below a module docstring is reported, once, at
    its line. *)
Example password_finding_with_module_docstring :
  returned after_documented
  = Some [mkIssue "documented.py" (Some 2) Security High
            "Potential hardcoded credential detected"].
Proof. vm_compute. reflexivity. Qed.

(** C4, as stated, fails: [settings.py] is a valid module without a
    docstring, and with a template file the process may not read
    [review_file] returns no list at all: the [PermissionError] of
    [load_template] is raised before the [try] block is entered. *)
Lemma undocumented_module_with_locked_template_raises :
  Text.lower (Text.splitext_ext "settings.py") = ".py"
  /\ open_read world_with_locked_template "settings.py" = ReadOk password_line
  /\ ast_parse world_with_locked_template password_line
     = Parsed (Module [password_assign])
  /\ starts_with_docstring [password_assign] = false
  /\ ~ Stated.undocumented_module_returns_nothing world_with_locked_template
         "settings.py" "general" password_line [password_assign] fresh.
Proof.
  split; [reflexivity|]. split; [reflexivity|]. split; [reflexivity|].
  split; [reflexivity|].
  intros H.
  destruct (H eq_refl eq_refl eq_refl eq_refl) as (s' & Hrun & _).
  vm_compute in Hrun. discriminate Hrun.
Qed.

(** C4, amended.  When reading the template file gives its content or
    fails with [FileNotFoundError]: for a [.py] file that parses to a
    module whose body does not start with a string literal,
    [review_file] returns the empty list and leaves the statistics as
    they were, whatever the credential rule found: the docstring rule
    reads [lineno] from the module node, the error reaches the handler
    of [review_file], and the findings collected so far stay in
    [self.issues] without being returned. *)
Theorem undocumented_module_yields_no_issue (w : World)
    (file_path template_name content : string) (body : list node)
    (s : state) :
  Text.lower (Text.splitext_ext file_path) = ".py" ->
  template_read_or_missing w (self s) template_name ->
  open_read w file_path = ReadOk content ->
  ast_parse w content = Parsed (Module body) ->
  starts_with_docstring body = false ->
  exists s',
    review_file w file_path template_name s = Return [] s'
    /\ stats (self s') = stats (self s)
    /\ (template_present w (self s) template_name ->
        issues (self s') = credential_findings file_path content).
Proof.
  intros Hext Htpl Hread Hparse Hdoc.
  enter_review_file. set (s0 := mkState _ _).
  unfold template_read_or_missing in Htpl.
  unfold template_present.
  destruct (open_read w (template_file (self s) template_name))
    as [tcontent|e] eqn:Hopen.
  - rewrite (ReviewFacts.load_template_read w template_name tcontent s0 Hopen).
    destruct (Dict.truthy (_parse_template tcontent)) eqn:Htruthy; simpl.
    + unfold try_except, bind at 1, read_file. rewrite Hread. simpl.
      rewrite Hext. simpl. unfold bind at 1.
      unfold _review_python_file. rewrite Hparse.
      unfold bind at 1.
      rewrite ReviewFacts.check_hardcoded_credentials_run.
      unfold bind at 1.
      rewrite (ReviewFacts.check_docstrings_raises _ _ _ Hdoc).
      simpl. eexists. split; [reflexivity|]. simpl. auto.
    + eexists. split; [reflexivity|]. simpl. split; [reflexivity|].
      intros (c & [= <-] & Hc). congruence.
  - destruct e as [msg| |]; try discriminate.
    rewrite (ReviewFacts.load_template_missing w template_name msg s0 Hopen).
    simpl. eexists. split; [reflexivity|]. simpl. split; [reflexivity|].
    intros (c & Hc & _). discriminate.
Qed.

(** C4 at [settings.py]. *)
Lemma undocumented_module_yields_no_issue_witness :
  exists s',
    review_file world "settings.py" "general" fresh = Return [] s'
    /\ stats (self s') = stats (self fresh)
    /\ (template_present world (self fresh) "general" ->
        issues (self s') = credential_findings "settings.py" password_line).
Proof.
  apply (undocumented_module_yields_no_issue world "settings.py" "general"
           password_line [password_assign] fresh);
    vm_compute; reflexivity || exact I.
Defined.

(** C5, as stated, fails: with the template missing, the review of
    [notes.txt] returns nothing, with the template present (and every
    other file the same) it returns the trailing-whitespace issue of
    line 1. *)
Lemma missing_template_returns_no_issue :
  returned (load_template world_without_template "general" fresh)
  = Some Dict.empty
  /\ template_present world (self fresh) "general"
  /\ (forall path, path <> template_file (self fresh) "general" ->
       open_read world_without_template path = open_read world path)
  /\ returned (review_file world "notes.txt" "general" fresh)
     = Some [mkIssue "notes.txt" (Some 1) Style Low
               "Line has trailing whitespace"]
  /\ ~ missing_template_changes_nothing world_without_template world
         "notes.txt" "general" fresh.
Proof.
  split; [vm_compute; reflexivity|]. split; [|split; [|split]].
  - eexists. split; vm_compute; reflexivity.
  - intros path Hpath. simpl.
    destruct (String.eqb path "templates/general.md") eqn:E;
      [|reflexivity].
    apply String.eqb_eq in E. contradiction.
  - vm_compute. reflexivity.
  - unfold missing_template_changes_nothing. vm_compute. discriminate.
Qed.

(** C5, amended.  A template that is not found gates the whole review:
    [review_file] logs the two failures and returns the empty list
    without reading the file or running any rule; [self.issues] is
    empty and the statistics are untouched.  A template that is found
    with at least one section is not consulted by any rule: two worlds
    that differ in the template only give the same review. *)
Theorem missing_template_skips_every_check (w : World)
    (file_path template_name : string) (s : state) :
  (forall msg,
     open_read w (template_file (self s) template_name)
     = ReadRaises (FileNotFoundError msg) ->
     review_file w file_path template_name s
     = Return []
         (mkState
            (mkReviewer (template_path (self s)) [] (stats (self s)))
            (log s
             ++ [("Template " ++ template_name ++ " not found at "
                  ++ template_file (self s) template_name)%string;
                 ("Failed to load template " ++ template_name)%string])))
  /\ (forall w',
        template_present w (self s) template_name ->
        template_present w' (self s) template_name ->
        open_read w file_path = open_read w' file_path ->
        (forall content, ast_parse w content = ast_parse w' content) ->
        review_file w file_path template_name s
        = review_file w' file_path template_name s).
Proof.
  split.
  - intros msg Hopen. enter_review_file. set (s0 := mkState _ _).
    rewrite (ReviewFacts.load_template_missing w template_name msg s0 Hopen).
    simpl. unfold bind, logger_error, ret. simpl.
    now rewrite <- app_assoc.
  - intros w' (c & Hc & Ht) (c' & Hc' & Ht') Hread Hparse.
    remember (review_file w' file_path template_name s) as rhs eqn:Hrhs.
    enter_review_file. set (s0 := mkState _ _).
    rewrite (ReviewFacts.load_template_read w template_name c s0 Hc).
    rewrite Ht. simpl.
    unfold try_except, bind at 1, read_file. rewrite Hread.
    subst rhs. symmetry.
    match goal with |- _ = ?l => remember l as lhs eqn:Hlhs end.
    enter_review_file. fold s0.
    rewrite (ReviewFacts.load_template_read w' template_name c' s0 Hc').
    rewrite Ht'. simpl.
    unfold try_except, bind at 1, read_file.
    subst lhs.
    destruct (open_read w' file_path) as [content|e]; [|reflexivity].
    change (ret content s0) with (Return content s0). cbv beta iota.
    unfold _review_python_file. rewrite Hparse. reflexivity.
Qed.

(** The amended C5 at [notes.txt]: no template, no issue; and the
    review is the same under two different templates. *)
Lemma missing_template_skips_every_check_witness :
  review_file world_without_template "notes.txt" "general" fresh
  = Return []
      (mkState (init "templates")
         ["Template general not found at templates/general.md";
          "Failed to load template general"])
  /\ review_file world "notes.txt" "general" fresh
     = review_file world_with_other_template "notes.txt" "general" fresh.
Proof.
  split.
  - apply (proj1 (missing_template_skips_every_check world_without_template
                    "notes.txt" "general" fresh)
             "[Errno 2] No such file or directory").
    vm_compute. reflexivity.
  - apply (proj2 (missing_template_skips_every_check world
                    "notes.txt" "general" fresh) world_with_other_template).
    + eexists. split; vm_compute; reflexivity.
    + eexists. split; vm_compute; reflexivity.
    + reflexivity.
    + reflexivity.
Defined.

(** C8.  [generate_review_report] with the empty list is meant to give
    the fixed no-issues text whatever the reviewer holds.  After
    [documented.py] was reviewed, [self.issues] holds its one finding,
    and the call with the empty list renders that finding, exactly as
    the call without argument does: an empty list is taken for a
    missing argument. *)
Theorem empty_list_reports_stored_issues :
  let r := self (final_state after_documented) in
  issues r
  = [mkIssue "documented.py" (Some 2) Security High
       "Potential hardcoded credential detected"]
  /\ generate_review_report r (Some [])
     = String.concat Text.nl
         ["# Code Review Report"; "";
          "## Summary"; "";
          "- Files reviewed: 1";
          "- Total issues found: 1"; "";
          "### Issues by Category"; "";
          "- Security: 1"; "";
          "## Detailed Findings"; "";
          "### File: `documented.py`"; "";
          "#### High Severity Issues"; "";
          "- **Line 2** (Security): Potential hardcoded credential detected";
          ""]
  /\ generate_review_report r (Some []) = generate_review_report r None
  /\ generate_review_report r (Some []) <> no_issues_report.
Proof.
  vm_compute. repeat split; try reflexivity. discriminate.
Qed.

(** On a reviewer that holds no issue the empty list does give the
    fixed text. *)
Lemma empty_list_report_of_idle_reviewer (r : CodeReviewer) :
  issues r = [] -> generate_review_report r (Some []) = no_issues_report.
Proof. unfold generate_review_report. now intros ->. Qed.

(** C9, as stated, fails: [__init__] without docstring, in a documented
    class of a documented module, is not reported. *)
Lemma dunder_function_is_exempt :
  spec_undocumented
    (FunctionDef "__init__" 4 [Other [Other []]] [Other []] []) = true
  /\ _check_docstrings "users.py" dunder_module fresh = Return tt fresh
  /\ ~ spec_docstring_rule "users.py" dunder_module.
Proof.
  split; [reflexivity|]. split; [vm_compute; reflexivity|].
  intros Hrule. destruct (Hrule fresh) as (s' & Hrun & Hall).
  vm_compute in Hrun. injection Hrun as <-.
  destruct (Hall (FunctionDef "__init__" 4 [Other [Other []]] [Other []] []))
    as (i & Hin & _).
  - vm_compute. tauto.
  - reflexivity.
  - exact Hin.
Qed.

(** C9, amended.  On a parsed module that has a docstring, the
    docstring rule does not fail and appends, in walk order, one
    Documentation/Medium issue at the node's line for every class
    whose body does not start with a string literal and for every
    function whose body does not and whose name does not start with an
    underscore (one or several: dunder names are exempt as well);
    nothing else is appended. *)
Theorem docstring_rule_on_documented_module (file_path : string)
    (body : list node) (s : state) :
  parsed_module (Module body) = true ->
  starts_with_docstring body = true ->
  _check_docstrings file_path (Module body) s
  = Return tt
      (add_issues
         (map (docstring_issue file_path)
            (filter undocumented (walk (Module body))))
         s).
Proof.
  intros Hparsed Hdoc. apply ReviewFacts.check_docstrings_run.
  destruct (AstFacts.walk_parsed_module body Hparsed) as (rest & -> & Hrest).
  intros n [<-|Hin] Hmod.
  - eauto.
  - rewrite forallb_forall in Hrest.
    rewrite (ReviewFacts.parsed_inner_not_module n (Hrest n Hin)) in Hmod.
    discriminate.
Qed.

(** The amended C9 on a module whose class, [__init__], [add] and
    [_find] all lack a docstring: the class and [add] are reported. *)
Lemma docstring_rule_on_documented_module_witness :
  _check_docstrings "users.py" undocumented_class_module fresh
  = Return tt
      (mkState
         (mkReviewer "templates"
            [mkIssue "users.py" (Some 2) Documentation Medium
               "Missing docstring for class 'Users'";
             mkIssue "users.py" (Some 5) Documentation Medium
               "Missing docstring for function 'add'"]
            (mkStats 0 0 []))
         []).
Proof.
  unfold undocumented_class_module.
  rewrite docstring_rule_on_documented_module; reflexivity.
Defined.

(** C10, as stated, fails: [load_template] lets every error but
    [FileNotFoundError] through, and [review_file] calls it outside its
    [try]; with a template file the process may not read, the error
    reaches the caller. *)
Lemma unreadable_template_raises :
  review_file world_with_locked_template "settings.py" "general" fresh
  = Raise (OtherException "PermissionError" "[Errno 13] Permission denied")
      fresh
  /\ ~ review_file_returns world_with_locked_template "settings.py" "general"
         fresh.
Proof.
  split; [vm_compute; reflexivity|].
  intros (l & s' & H). vm_compute in H. discriminate H.
Qed.

(** C10, amended.  When reading the template file gives its content or
    fails with [FileNotFoundError], [review_file] returns a list and
    raises nothing, for every path and every content; and when the
    file under review cannot be read, the list is empty and the
    statistics are those from before the call. *)
Theorem review_file_returns_when_template_loads (w : World)
    (file_path template_name : string) (s : state) :
  template_read_or_missing w (self s) template_name ->
  review_file_returns w file_path template_name s
  /\ forall e,
       open_read w file_path = ReadRaises e ->
       exists s',
         review_file w file_path template_name s = Return [] s'
         /\ stats (self s') = stats (self s).
Proof.
  intros Htpl. unfold review_file_returns, template_read_or_missing in *.
  set (s0 := mkState (mkReviewer (template_path (self s)) [] (stats (self s)))
               (log s)).
  assert (Hload :
            exists template lg,
              load_template w template_name s0
              = Return template (mkState (self s0) lg)).
  { destruct (open_read w (template_file (self s) template_name))
      as [tcontent|e] eqn:Hopen.
    - rewrite (ReviewFacts.load_template_read w template_name tcontent s0
                 Hopen).
      now exists (_parse_template tcontent), (log s0).
    - destruct e as [msg| |]; try discriminate.
      rewrite (ReviewFacts.load_template_missing w template_name msg s0
                 Hopen).
      eauto. }
  destruct Hload as (template & lg & Hload).
  split; [|intros e He]; enter_review_file; fold s0; rewrite Hload;
    destruct (Dict.truthy template); simpl.
  - unfold try_except.
    match goal with
    | |- context [match ?body ?st with _ => _ end] => destruct (body st)
    end; do 2 eexists; reflexivity.
  - do 2 eexists; reflexivity.
  - unfold try_except, bind at 1, read_file. rewrite He. simpl.
    eexists. split; reflexivity.
  - eexists. split; reflexivity.
Qed.

(** The amended C10 at a file that does not exist. *)
Lemma review_file_returns_when_template_loads_witness :
  review_file_returns world "absent.py" "general" fresh
  /\ exists s',
       review_file world "absent.py" "general" fresh = Return [] s'
       /\ stats (self s') = stats (self fresh).
Proof.
  assert (Htpl : template_read_or_missing world (self fresh) "general")
    by exact I.
  destruct (review_file_returns_when_template_loads world "absent.py"
              "general" fresh Htpl) as [Hret Hio].
  split; [exact Hret|].
  apply (Hio (FileNotFoundError "[Errno 2] No such file or directory")).
  reflexivity.
Defined.

End ReviewClaims.

(** ** What a review does to the reviewer *)

Module OutcomeFacts.
Import Ast ReviewLogic Spec Findings Effects.
Local Open Scope review_scope.

Lemma appends_ret {A : Type} (a : A) : appends_only (ret a).
Proof. intros s. exists []. simpl. now rewrite ReviewFacts.add_issues_nil. Qed.

Lemma appends_raise {A : Type} (e : exception) : appends_only (@raise A e).
Proof. intros s. exists []. simpl. now rewrite ReviewFacts.add_issues_nil. Qed.

Lemma appends_append_issue (i : Issue) : appends_only (append_issue i).
Proof. intros s. now exists [i]. Qed.

Lemma appends_bind {A B : Type} (m : M A) (k : A -> M B) :
  appends_only m -> (forall a, appends_only (k a)) -> appends_only (bind m k).
Proof.
  intros Hm Hk s. unfold bind. destruct (Hm s) as [l1 H1].
  destruct (m s) as [a s1|e s1]; simpl in H1; subst s1.
  - destruct (Hk a (add_issues l1 s)) as [l2 H2].
    exists (l1 ++ l2). now rewrite H2, ReviewFacts.add_issues_app.
  - now exists l1.
Qed.

Lemma appends_foreach {A : Type} (l : list A) (body : A -> M unit) :
  (forall x, appends_only (body x)) -> appends_only (foreach l body).
Proof.
  intros Hbody. induction l as [|x l IH]; simpl.
  - apply appends_ret.
  - apply appends_bind; auto.
Qed.

Lemma appends_if {A : Type} (b : bool) (m1 m2 : M A) :
  appends_only m1 -> appends_only m2 -> appends_only (if b then m1 else m2).
Proof. now destruct b. Qed.

Lemma appends_read_file (w : World) (path : string) :
  appends_only (read_file w path).
Proof.
  unfold read_file. destruct (open_read w path);
    [apply appends_ret | apply appends_raise].
Qed.

Ltac appends :=
  repeat first
    [ apply appends_ret | apply appends_raise | apply appends_append_issue
    | apply appends_read_file
    | apply appends_bind | apply appends_foreach | apply appends_if
    | intro ].

Lemma appends_check_hardcoded_credentials (file_path content : string) :
  appends_only (_check_hardcoded_credentials file_path content).
Proof. unfold _check_hardcoded_credentials. appends. Qed.

Lemma appends_check_docstrings (file_path : string) (tree : node) :
  appends_only (_check_docstrings file_path tree).
Proof.
  unfold _check_docstrings. apply appends_foreach. intros n.
  destruct (body_of n); [|apply appends_ret].
  apply appends_if; [|apply appends_ret].
  apply appends_bind; [|intro; apply appends_append_issue].
  unfold getattr_lineno. destruct (lineno_of n);
    [apply appends_ret | apply appends_raise].
Qed.

Lemma appends_check_naming_conventions (file_path : string) (tree : node) :
  appends_only (_check_naming_conventions file_path tree).
Proof.
  unfold _check_naming_conventions. apply appends_foreach. intros n.
  destruct n; appends.
Qed.

Lemma appends_check_function_complexity (file_path : string) (tree : node) :
  appends_only (_check_function_complexity file_path tree).
Proof.
  unfold _check_function_complexity. apply appends_foreach. intros n.
  destruct n; appends.
Qed.

Lemma appends_check_console_logs (file_path content : string) :
  appends_only (_check_console_logs file_path content).
Proof. unfold _check_console_logs. appends. Qed.

Lemma appends_check_line_length (file_path content : string) :
  appends_only (_check_line_length file_path content).
Proof.
  unfold _check_line_length. apply appends_foreach. intros [i l]. appends.
Qed.

Lemma appends_check_trailing_whitespace (file_path content : string) :
  appends_only (_check_trailing_whitespace file_path content).
Proof.
  unfold _check_trailing_whitespace. apply appends_foreach. intros [i l].
  destruct (Text.last_char l); appends.
Qed.

Lemma appends_review_python_file (w : World) (file_path content : string)
    (template : Dict.t (list string)) :
  appends_only (_review_python_file w file_path content template).
Proof.
  unfold _review_python_file. destruct (ast_parse w content).
  - apply appends_bind; [apply appends_check_hardcoded_credentials|intro].
    apply appends_bind; [apply appends_check_docstrings|intro].
    apply appends_bind; [apply appends_check_naming_conventions|intro].
    apply appends_check_function_complexity.
  - apply appends_append_issue.
  - apply appends_raise.
Qed.

Lemma appends_review_javascript_file (file_path content : string)
    (template : Dict.t (list string)) :
  appends_only (_review_javascript_file file_path content template).
Proof.
  unfold _review_javascript_file.
  apply appends_bind; [apply appends_check_console_logs|intro].
  apply appends_check_hardcoded_credentials.
Qed.

Lemma appends_review_generic_file (file_path content : string)
    (template : Dict.t (list string)) :
  appends_only (_review_generic_file file_path content template).
Proof.
  unfold _review_generic_file.
  apply appends_bind; [apply appends_check_line_length|intro].
  apply appends_check_trailing_whitespace.
Qed.

(** [load_template] returns in the state it was called in, possibly
    with a line more in the log, or raises in that very state. *)
Lemma load_template_outcome (w : World) (name : string) (s : state) :
  match load_template w name s with
  | Return template s' =>
      self s' = self s /\ (Dict.truthy template = true -> s' = s)
  | Raise _ s' => s' = s
  end.
Proof.
  unfold load_template, bind, get_self, try_except, read_file.
  destruct (open_read w _) as [c|e]; simpl; [auto|].
  destruct (is_FileNotFoundError e); simpl; [|reflexivity].
  split; [reflexivity | discriminate].
Qed.

(** The dispatch on the extension only appends issues. *)
Lemma appends_dispatch (w : World) (file_path content : string)
    (template : Dict.t (list string)) :
  appends_only
    (if String.eqb (Text.lower (Text.splitext_ext file_path)) ".py" then
       _review_python_file w file_path content template
     else if String.eqb (Text.lower (Text.splitext_ext file_path)) ".js"
             || String.eqb (Text.lower (Text.splitext_ext file_path)) ".ts"
     then _review_javascript_file file_path content template
     else _review_generic_file file_path content template).
Proof.
  repeat apply appends_if;
    auto using appends_review_python_file,
      appends_review_javascript_file,
      appends_review_generic_file.
Qed.

Ltac enter :=
  unfold review_file; unfold bind at 1;
  cbn [set_issues bind get_self put_self self log];
  unfold bind at 1; cbn [template_path stats].

(** The three ways a call of [review_file] ends. *)
Lemma review_file_outcome_cases (w : World)
    (file_path template_name : string) (s : state) :
  match review_file w file_path template_name s with
  | Raise _ s' => s' = emptied s
  | Return l s' =>
      template_path (self s') = template_path (self s)
      /\ ((l = [] /\ stats (self s') = stats (self s))
          \/ s' = reviewed l s)
  end.
Proof.
  enter. fold (emptied s).
  pose proof (load_template_outcome w template_name (emptied s))
    as Hload.
  destruct (load_template w template_name (emptied s)) as [template s1|e s1];
    [|exact Hload].
  destruct Hload as [Hself Hsame].
  destruct (Dict.truthy template); simpl.
  - rewrite (Hsame eq_refl). clear Hself Hsame s1.
    unfold try_except, bind at 1, read_file.
    destruct (open_read w file_path) as [content|e]; simpl; [|auto].
    unfold bind at 1.
    destruct (appends_dispatch w file_path content template (emptied s))
      as [l Hl].
    match goal with
    | |- context [match ?m (emptied s) with _ => _ end] =>
        destruct (m (emptied s)) as [[] s2|e s2]
    end; simpl in Hl; subst s2; simpl; auto.
  - rewrite Hself. simpl. auto.
Qed.

End OutcomeFacts.

Module OutcomeTheorems.
Import Ast ReviewLogic Spec Findings Effects.

(** X6.  Every call of [review_file] ends in one of three ways.  It
    raises, which only the loading of the template can cause, and then
    [self.issues] is empty and statistics and log are as before.  Or it
    returns the empty list with the statistics as before.  Or it
    returns exactly the list now held in [self.issues], with
    [files_reviewed] one higher, [issues_found] higher by the length of
    that list, the per-category counts raised by its categories, and
    nothing logged. *)
Theorem review_file_outcome (w : World) (file_path template_name : string)
    (s : state) :
  match review_file w file_path template_name s with
  | Raise _ s' => s' = emptied s
  | Return l s' =>
      template_path (self s') = template_path (self s)
      /\ ((l = [] /\ stats (self s') = stats (self s))
          \/ s' = reviewed l s)
  end.
Proof. apply OutcomeFacts.review_file_outcome_cases. Qed.

End OutcomeTheorems.

(** ** A review does not read the statistics, the log or old issues *)

Module IndependenceFacts.
Import Ast ReviewLogic Spec Findings Effects.
Local Open Scope review_scope.

Lemma respects_ret {A : Type} (a : A) : respects (ret a).
Proof. intros s1 s2 H. simpl. auto. Qed.

Lemma respects_raise {A : Type} (e : exception) : respects (@raise A e).
Proof. intros s1 s2 H. simpl. auto. Qed.

Lemma respects_bind {A B : Type} (m : M A) (k : A -> M B) :
  respects m -> (forall a, respects (k a)) -> respects (bind m k).
Proof.
  intros Hm Hk s1 s2 H. unfold bind. specialize (Hm s1 s2 H).
  destruct (m s1) as [a1 t1|e1 t1], (m s2) as [a2 t2|e2 t2];
    simpl in Hm; try contradiction.
  - destruct Hm as [<- Ht]. now apply Hk.
  - exact Hm.
Qed.

Lemma respects_try_except {A : Type} (body : M A)
    (catches : exception -> bool) (handler : exception -> M A) :
  respects body -> (forall e, respects (handler e)) ->
  respects (try_except body catches handler).
Proof.
  intros Hb Hh s1 s2 H. unfold try_except. specialize (Hb s1 s2 H).
  destruct (body s1) as [a1 t1|e1 t1], (body s2) as [a2 t2|e2 t2];
    simpl in Hb; try contradiction.
  - exact Hb.
  - destruct Hb as [<- Ht]. destruct (catches e1); [now apply Hh|].
    simpl. auto.
Qed.

Lemma respects_foreach {A : Type} (l : list A) (body : A -> M unit) :
  (forall x, respects (body x)) -> respects (foreach l body).
Proof.
  intros Hbody. induction l as [|x l IH]; simpl.
  - apply respects_ret.
  - apply respects_bind; auto.
Qed.

Lemma respects_if {A : Type} (b : bool) (m1 m2 : M A) :
  respects m1 -> respects m2 -> respects (if b then m1 else m2).
Proof. now destruct b. Qed.

Lemma respects_append_issue (i : Issue) : respects (append_issue i).
Proof.
  intros s1 s2 [Hp Hi]. simpl. unfold same_view. simpl.
  rewrite Hi. auto.
Qed.

Lemma respects_logger_error (msg : string) : respects (logger_error msg).
Proof. intros s1 s2 H. simpl. auto. Qed.

Lemma respects_read_file (w : World) (path : string) :
  respects (read_file w path).
Proof.
  unfold read_file. destruct (open_read w path);
    [apply respects_ret | apply respects_raise].
Qed.

Lemma respects_update_statistics : respects update_statistics.
Proof. intros s1 s2 [Hp Hi]. simpl. unfold same_view. simpl. auto. Qed.

Lemma respects_return_issues :
  respects (bind get_self (fun r => ret (issues r))).
Proof. intros s1 s2 [Hp Hi]. simpl. unfold same_view. auto. Qed.

Lemma respects_load_template (w : World) (name : string) :
  respects (load_template w name).
Proof.
  intros s1 s2 [Hp Hi].
  unfold load_template, bind, get_self, try_except, read_file.
  rewrite Hp. destruct (open_read w _) as [c|e]; simpl.
  - unfold same_view. auto.
  - destruct (is_FileNotFoundError e); simpl; unfold same_view; auto.
Qed.

Ltac respects :=
  repeat first
    [ apply respects_ret | apply respects_raise | apply respects_append_issue
    | apply respects_read_file | apply respects_logger_error
    | apply respects_update_statistics | apply respects_return_issues
    | apply respects_load_template
    | apply respects_bind | apply respects_foreach | apply respects_if
    | apply respects_try_except
    | intro ].

Lemma respects_review_python_file (w : World) (file_path content : string)
    (template : Dict.t (list string)) :
  respects (_review_python_file w file_path content template).
Proof.
  unfold _review_python_file. destruct (ast_parse w content) as [tree| |].
  - unfold _check_hardcoded_credentials, _check_docstrings,
      _check_naming_conventions, _check_function_complexity.
    apply respects_bind; [respects|intro].
    apply respects_bind.
    { apply respects_foreach. intros n.
      destruct (body_of n); [|respects].
      apply respects_if; [|respects].
      apply respects_bind; [|respects].
      unfold getattr_lineno. destruct (lineno_of n); respects. }
    intro. apply respects_bind.
    { apply respects_foreach. intros n. destruct n; respects. }
    intro. apply respects_foreach. intros n. destruct n; respects.
  - respects.
  - respects.
Qed.

Lemma respects_review_javascript_file (file_path content : string)
    (template : Dict.t (list string)) :
  respects (_review_javascript_file file_path content template).
Proof.
  unfold _review_javascript_file, _check_console_logs,
    _check_hardcoded_credentials. respects.
Qed.

Lemma respects_review_generic_file (file_path content : string)
    (template : Dict.t (list string)) :
  respects (_review_generic_file file_path content template).
Proof.
  unfold _review_generic_file, _check_line_length, _check_trailing_whitespace.
  apply respects_bind.
  - apply respects_foreach. intros [i l]. respects.
  - intro. apply respects_foreach. intros [i l].
    destruct (Text.last_char l); respects.
Qed.

(** [review_file] on two reviewers with the same template directory. *)
Lemma review_file_respects (w : World) (file_path template_name : string)
    (s1 s2 : state) :
  template_path (self s1) = template_path (self s2) ->
  same_outcome (review_file w file_path template_name s1)
    (review_file w file_path template_name s2).
Proof.
  intros Hp. unfold review_file.
  unfold bind at 1. cbn [set_issues bind get_self put_self self log].
  match goal with
  | |- same_outcome (bind ?m ?k ?a) (bind ?m ?k ?b) =>
      assert (Hr : respects (bind m k)); [|apply Hr; split; simpl; auto]
  end.
  apply respects_bind;
    [apply respects_load_template|].
  intros template. apply respects_if;
    [respects|].
  apply respects_try_except;
    [|respects].
  apply respects_bind;
    [apply respects_read_file|].
  intros content. apply respects_bind.
  - repeat apply respects_if;
      auto using respects_review_python_file,
        respects_review_javascript_file,
        respects_review_generic_file.
  - intro. apply respects_bind;
      [apply respects_update_statistics|].
    intro. apply respects_return_issues.
Qed.

End IndependenceFacts.


Module IndependenceTheorems.
Import Ast ReviewLogic Spec Findings Effects.

(** X7.  A review reads nothing of the reviewer but its template
    directory: on two reviewers with the same template directory,
    whatever their statistics, logs and stored issues,
    [review_file] returns the same list or raises the same exception,
    and leaves the same [self.issues]. *)
Theorem review_file_ignores_history (w : World)
    (file_path template_name : string) (s1 s2 : state) :
  template_path (self s1) = template_path (self s2) ->
  same_outcome (review_file w file_path template_name s1)
    (review_file w file_path template_name s2).
Proof. apply IndependenceFacts.review_file_respects. Qed.

(** X7 on a fresh reviewer and one that has reviewed a file before. *)
Lemma review_file_ignores_history_witness :
  same_outcome (review_file Cases.world "app.js" "general" Inputs.fresh)
    (review_file Cases.world "app.js" "general" Cases.used).
Proof.
  apply (review_file_ignores_history Cases.world "app.js" "general"
           Inputs.fresh Cases.used).
  reflexivity.
Defined.

End IndependenceTheorems.

(** ** What a review returns, by kind of file *)

Module KindFacts.
Import Ast ReviewLogic Spec Findings Effects.
Local Open Scope review_scope.

Lemma check_console_logs_run (file_path content : string) (s : state) :
  _check_console_logs file_path content s
  = Return tt (add_issues (console_findings file_path content) s).
Proof.
  unfold _check_console_logs, console_findings.
  rewrite <- ReviewFacts.flat_map_singleton.
  apply ReviewFacts.foreach_emits. intros. apply ReviewFacts.append_issue_run.
Qed.

Lemma check_line_length_run (file_path content : string) (s : state) :
  _check_line_length file_path content s
  = Return tt (add_issues (line_length_findings file_path content) s).
Proof.
  unfold _check_line_length, line_length_findings.
  apply ReviewFacts.foreach_emits. intros [i l] _ s'.
  destruct (100 <? Z.of_nat (String.length l));
    [apply ReviewFacts.append_issue_run | apply ReviewFacts.ret_run].
Qed.

Lemma check_trailing_whitespace_run (file_path content : string)
    (s : state) :
  _check_trailing_whitespace file_path content s
  = Return tt (add_issues (trailing_whitespace_findings file_path content) s).
Proof.
  unfold _check_trailing_whitespace, trailing_whitespace_findings.
  apply ReviewFacts.foreach_emits. intros [i l] _ s'. unfold trailing_space.
  destruct (Text.last_char l) as [c|]; [|apply ReviewFacts.ret_run].
  destruct (Text.is_space c);
    [apply ReviewFacts.append_issue_run | apply ReviewFacts.ret_run].
Qed.

Lemma check_naming_conventions_run (file_path : string) (tree : node)
    (s : state) :
  _check_naming_conventions file_path tree s
  = Return tt (add_issues (naming_findings file_path tree) s).
Proof.
  unfold _check_naming_conventions, naming_findings.
  apply ReviewFacts.foreach_emits. intros n _ s'.
  destruct n; simpl; try apply ReviewFacts.ret_run.
  - destruct (negb (String.prefix "__" name)
              && negb (Re.matches snake_case name));
      [apply ReviewFacts.append_issue_run | apply ReviewFacts.ret_run].
  - destruct (negb (Re.matches camel_case name));
      [apply ReviewFacts.append_issue_run | apply ReviewFacts.ret_run].
Qed.

Lemma check_function_complexity_run (file_path : string) (tree : node)
    (s : state) :
  _check_function_complexity file_path tree s
  = Return tt (add_issues (complexity_findings file_path tree) s).
Proof.
  unfold _check_function_complexity, complexity_findings.
  apply ReviewFacts.foreach_emits. intros n _ s'.
  destruct n; try apply ReviewFacts.ret_run.
  unfold complexity_finding.
  destruct (10 <? _calculate_complexity _);
    [apply ReviewFacts.append_issue_run | apply ReviewFacts.ret_run].
Qed.

(** The end of a review whose rules appended [l] to an empty list. *)
Lemma finish_review (l : list Issue) (s : state) :
  bind update_statistics
    (fun _ => bind get_self (fun r => ret (issues r)))
    (add_issues l (emptied s))
  = Return l (reviewed l s).
Proof. reflexivity. Qed.

End KindFacts.

Module KindTheorems.
Import Ast ReviewLogic Spec Findings Effects.
Local Open Scope review_scope.

Ltac enter :=
  unfold review_file; unfold bind at 1;
  cbn [set_issues bind get_self put_self self log];
  unfold bind at 1; cbn [template_path stats].

(** With the template present and the file readable, a review whose
    rules run through returns what they appended. *)
Lemma review_file_runs (w : World) (file_path template_name content : string)
    (l : list Issue) (s : state) :
  template_present w (self s) template_name ->
  open_read w file_path = ReadOk content ->
  (forall template,
     dispatch w file_path content template (emptied s)
     = Return tt (add_issues l (emptied s))) ->
  review_file w file_path template_name s = Return l (reviewed l s).
Proof.
  intros (c & Hc & Ht) Hread Hrun. enter. fold (emptied s).
  rewrite (ReviewFacts.load_template_read w template_name c (emptied s) Hc).
  rewrite Ht. simpl.
  unfold try_except, bind at 1, read_file. rewrite Hread. simpl.
  unfold bind at 1.
  change (if String.eqb (Text.lower (Text.splitext_ext file_path)) ".py"
          then _review_python_file w file_path content (_parse_template c)
          else if String.eqb (Text.lower (Text.splitext_ext file_path)) ".js"
                  || String.eqb (Text.lower (Text.splitext_ext file_path)) ".ts"
          then _review_javascript_file file_path content (_parse_template c)
          else _review_generic_file file_path content (_parse_template c))
    with (dispatch w file_path content (_parse_template c)).
  rewrite Hrun. rewrite KindFacts.finish_review. reflexivity.
Qed.

(** X8.  A [.py] file that parses to a module with a docstring, the
    template being present: no rule fails, and [review_file] returns,
    in this order, the credential findings, the docstring findings,
    the naming findings and the complexity findings, each rule's in
    the order of its own loop; the file is counted as reviewed with
    exactly these issues. *)
Theorem review_of_documented_python_module (w : World)
    (file_path template_name content : string) (body : list node)
    (s : state) :
  Text.lower (Text.splitext_ext file_path) = ".py" ->
  template_present w (self s) template_name ->
  open_read w file_path = ReadOk content ->
  ast_parse w content = Parsed (Module body) ->
  parsed_module (Module body) = true ->
  starts_with_docstring body = true ->
  let l := credential_findings file_path content
           ++ docstring_findings file_path (Module body)
           ++ naming_findings file_path (Module body)
           ++ complexity_findings file_path (Module body) in
  review_file w file_path template_name s = Return l (reviewed l s).
Proof.
  intros Hext Htpl Hread Hparse Hparsed Hdoc l.
  apply (review_file_runs w file_path template_name content l s Htpl Hread).
  intros template. unfold dispatch. rewrite Hext. simpl.
  unfold _review_python_file. rewrite Hparse.
  unfold bind. rewrite ReviewFacts.check_hardcoded_credentials_run.
  rewrite ReviewFacts.check_docstrings_run.
  - rewrite KindFacts.check_naming_conventions_run,
      KindFacts.check_function_complexity_run.
    rewrite !ReviewFacts.add_issues_app. unfold l, docstring_findings.
    now rewrite <- ?app_assoc.
  - destruct (AstFacts.walk_parsed_module body Hparsed)
      as (rest & -> & Hrest).
    intros n [<-|Hin] Hmod; [eauto|].
    rewrite forallb_forall in Hrest.
    rewrite (ReviewFacts.parsed_inner_not_module n (Hrest n Hin)) in Hmod.
    discriminate.
Qed.

(** X9.  A [.py] file that does not parse, the template being present:
    [review_file] returns one Syntax/High issue at the line the parser
    reports, with the parser's message, and nothing else: no
    credential finding is made; the file is counted as reviewed with
    one issue. *)
Theorem review_of_python_syntax_error (w : World)
    (file_path template_name content msg : string) (lineno : option Z)
    (s : state) :
  Text.lower (Text.splitext_ext file_path) = ".py" ->
  template_present w (self s) template_name ->
  open_read w file_path = ReadOk content ->
  ast_parse w content = SyntaxError lineno msg ->
  let l := [mkIssue file_path lineno Syntax High
              ("Syntax error: " ++ msg)%string] in
  review_file w file_path template_name s = Return l (reviewed l s).
Proof.
  intros Hext Htpl Hread Hparse l.
  apply (review_file_runs w file_path template_name content l s Htpl Hread).
  intros template. unfold dispatch. rewrite Hext. simpl.
  unfold _review_python_file. rewrite Hparse. reflexivity.
Qed.

(** X10.  A [.js] or [.ts] file (extension in any case), the template
    being present: [review_file] never fails and returns the
    [console.log] findings followed by the credential findings; the
    file is counted as reviewed with exactly these issues. *)
Theorem review_of_script_file (w : World)
    (file_path template_name content : string) (s : state) :
  Text.lower (Text.splitext_ext file_path) = ".js"
  \/ Text.lower (Text.splitext_ext file_path) = ".ts" ->
  template_present w (self s) template_name ->
  open_read w file_path = ReadOk content ->
  let l := console_findings file_path content
           ++ credential_findings file_path content in
  review_file w file_path template_name s = Return l (reviewed l s).
Proof.
  intros Hext Htpl Hread l.
  apply (review_file_runs w file_path template_name content l s Htpl Hread).
  intros template. unfold dispatch.
  assert (String.eqb (Text.lower (Text.splitext_ext file_path)) ".py" = false
          /\ (String.eqb (Text.lower (Text.splitext_ext file_path)) ".js"
              || String.eqb (Text.lower (Text.splitext_ext file_path)) ".ts")
             = true) as [-> ->]
    by (destruct Hext as [-> | ->]; split; reflexivity).
  cbv zeta. unfold _review_javascript_file, bind.
  rewrite KindFacts.check_console_logs_run,
    ReviewFacts.check_hardcoded_credentials_run.
  now rewrite ReviewFacts.add_issues_app.
Qed.

(** X11.  A file of any other extension, the template being present:
    [review_file] never fails and returns the over-long lines followed
    by the lines with trailing whitespace; no credential rule runs. *)
Theorem review_of_generic_file (w : World)
    (file_path template_name content : string) (s : state) :
  ~ In (Text.lower (Text.splitext_ext file_path)) [".py"; ".js"; ".ts"] ->
  template_present w (self s) template_name ->
  open_read w file_path = ReadOk content ->
  let l := line_length_findings file_path content
           ++ trailing_whitespace_findings file_path content in
  review_file w file_path template_name s = Return l (reviewed l s).
Proof.
  intros Hext Htpl Hread l.
  apply (review_file_runs w file_path template_name content l s Htpl Hread).
  intros template. unfold dispatch.
  assert (forall e, In e [".py"; ".js"; ".ts"] ->
            String.eqb (Text.lower (Text.splitext_ext file_path)) e = false)
    as Hne.
  { intros e He. apply String.eqb_neq. intros Heq.
    rewrite Heq in Hext. contradiction. }
  rewrite !Hne by (simpl; tauto). cbv zeta. simpl.
  unfold _review_generic_file, bind.
  rewrite KindFacts.check_line_length_run,
    KindFacts.check_trailing_whitespace_run.
  now rewrite ReviewFacts.add_issues_app.
Qed.

(** X8 at [documented.py]. *)
Lemma review_of_documented_python_module_witness :
  review_file Inputs.world "documented.py" "general" Inputs.fresh
  = Return
      [mkIssue "documented.py" (Some 2) Security High
         "Potential hardcoded credential detected"]
      (reviewed
         [mkIssue "documented.py" (Some 2) Security High
            "Potential hardcoded credential detected"]
         Inputs.fresh).
Proof.
  apply (review_of_documented_python_module Inputs.world "documented.py"
           "general" Inputs.documented_password
           [Expr (Str "Settings."); Inputs.password_assign] Inputs.fresh);
    try reflexivity.
  eexists. split; vm_compute; reflexivity.
Defined.

(** X9 at [broken.py]. *)
Lemma review_of_python_syntax_error_witness :
  returned (review_file Cases.world "broken.py" "general" Inputs.fresh)
  = Some [mkIssue "broken.py" (Some 1) Syntax High
            "Syntax error: invalid syntax (<unknown>, line 1)"].
Proof.
  rewrite (review_of_python_syntax_error Cases.world "broken.py" "general"
             Cases.broken "invalid syntax (<unknown>, line 1)" (Some 1)
             Inputs.fresh); try reflexivity.
  eexists. split; vm_compute; reflexivity.
Defined.

(** X10 at [app.js]. *)
Lemma review_of_script_file_witness :
  returned (review_file Cases.world "app.js" "general" Inputs.fresh)
  = Some [mkIssue "app.js" (Some 1) Debug Low
            "console.log statement should be removed in production code";
          mkIssue "app.js" (Some 2) Security High
            "Potential hardcoded credential detected"].
Proof.
  rewrite (review_of_script_file Cases.world "app.js" "general" Cases.script
             Inputs.fresh); try reflexivity.
  - left. reflexivity.
  - eexists. split; vm_compute; reflexivity.
Defined.

(** X11 at [notes.txt]. *)
Lemma review_of_generic_file_witness :
  returned (review_file Inputs.world "notes.txt" "general" Inputs.fresh)
  = Some [mkIssue "notes.txt" (Some 1) Style Low
            "Line has trailing whitespace"].
Proof.
  rewrite (review_of_generic_file Inputs.world "notes.txt" "general"
             Inputs.notes Inputs.fresh); try reflexivity.
  - vm_compute. intros [H|[H|[H|[]]]]; discriminate H.
  - eexists. split; vm_compute; reflexivity.
Defined.

End KindTheorems.

(** ** Statistics, and the driver *)

Module DriverFacts.
Import Ast ReviewLogic Spec Findings Effects Driver.
Local Open Scope review_scope.

Lemma sum_counts_set (d : Dict.t Z) (k : string) (v : Z) :
  sum_counts (Dict.set d k v)
  = sum_counts d - match Dict.get d k with Some n => n | None => 0 end + v.
Proof.
  unfold sum_counts, Dict.values.
  induction d as [|[k' v'] d IH]; simpl; [lia|].
  destruct (String.eqb k k'); simpl; lia.
Qed.

(** Counting a list of issues by category adds its length to the sum
    of the counts. *)
Lemma sum_counts_count_issue_types (l : list Issue) :
  forall d,
    sum_counts (count_issue_types l d)
    = sum_counts d + Z.of_nat (List.length l).
Proof.
  unfold count_issue_types.
  induction l as [|i l IH]; intros d; [simpl; lia|].
  cbn [fold_left List.length]. rewrite IH, sum_counts_set. lia.
Qed.

Lemma same_outcome_issues {A : Type} (o1 o2 : outcome A) :
  same_outcome o1 o2 ->
  issues (self (final_state o1)) = issues (self (final_state o2)).
Proof.
  destruct o1, o2; simpl; try contradiction; now intros [_ [_ H]].
Qed.

(** [review_file] raises exactly when loading the template does. *)
Lemma review_file_raises (w : World) (file_path template_name : string)
    (s : state) :
  match load_template w template_name (emptied s) with
  | Raise e s' => review_file w file_path template_name s = Raise e s'
  | Return _ _ =>
      exists l s', review_file w file_path template_name s = Return l s'
  end.
Proof.
  destruct (load_template w template_name (emptied s)) as [template s1|e s1]
    eqn:Hload;
    unfold review_file; unfold bind at 1;
    cbn [set_issues bind get_self put_self self log];
    unfold bind at 1; cbn [template_path stats]; fold (emptied s);
    rewrite Hload; [|reflexivity].
  destruct (Dict.truthy template); simpl.
  - unfold try_except.
    match goal with
    | |- context [match ?body s1 with _ => _ end] => destruct (body s1)
    end; do 2 eexists; reflexivity.
  - do 2 eexists; reflexivity.
Qed.

(** The file reviewed does not decide whether [review_file] raises. *)
Lemma review_file_raises_for_all (w : World) (x y template_name : string)
    (e : exception) (s s' : state) :
  review_file w x template_name s = Raise e s' ->
  review_file w y template_name s = Raise e s'.
Proof.
  intros Hx.
  pose proof (review_file_raises w x template_name s) as Hrx.
  pose proof (review_file_raises w y template_name s) as Hry.
  destruct (load_template w template_name (emptied s)) as [t s1|e1 s1].
  - destruct Hrx as (l & s2 & Hrx). congruence.
  - congruence.
Qed.

End DriverFacts.

Module DriverTheorems.
Import Ast ReviewLogic Spec Findings Effects Driver.
Local Open Scope review_scope.

(** X12.  If [issues_found] equals the sum of the per-category counts
    before a call of [review_file], it does so after the call, however
    the call ends. *)
Theorem review_file_keeps_stats_consistent (w : World)
    (file_path template_name : string) (s : state) :
  stats_consistent (stats (self s)) ->
  stats_consistent
    (stats (self (final_state (review_file w file_path template_name s)))).
Proof.
  intros H.
  pose proof (OutcomeFacts.review_file_outcome_cases w file_path template_name s)
    as Ho.
  destruct (review_file w file_path template_name s) as [l s'|e s']; simpl.
  - destruct Ho as [_ [[_ ->]| ->]]; [exact H|].
    unfold stats_consistent in *. simpl.
    rewrite DriverFacts.sum_counts_count_issue_types. lia.
  - subst s'. exact H.
Qed.

(** X13.  For a path that is a file, [main] reports what the reviewer
    holds after the review, not what [review_file] returned: the
    report is the one [generate_review_report] gives without argument.
    So findings collected before a rule failed are reported although
    the returned list is empty.  An exception of [review_file] leaves
    [main] as it is. *)
Theorem main_report_of_file (fs : FileSystem) (path template_name : string)
    (s : state) :
  isfile fs path = true ->
  match review_file (world fs) path template_name s with
  | Return _ s' =>
      main_report fs path template_name s
      = Return (Some (generate_review_report (self s') None)) s'
  | Raise e s' => main_report fs path template_name s = Raise e s'
  end.
Proof.
  intros Hfile.
  pose proof (OutcomeFacts.review_file_outcome_cases (world fs) path
                template_name s) as Ho.
  destruct (review_file (world fs) path template_name s) as [l s'|e s']
    eqn:Hrun;
    unfold main_report; rewrite Hfile; unfold bind at 1; rewrite Hrun;
    [|reflexivity].
  simpl. do 2 f_equal.
  destruct Ho as [_ [[-> _]| ->]]; [reflexivity|].
  simpl. now destruct l.
Qed.

(** X14.  The loop of the directory branch of [main] leaves in
    [self.issues], from which the report is then rendered, what a
    review of the last file alone leaves there: the issues of all
    files before it are gone from the reviewer. *)
Theorem review_files_keeps_last (w : World) (paths : list string)
    (last template_name : string) :
  forall s,
    issues (self (final_state
                    (review_files w (paths ++ [last]) template_name s)))
    = issues (self (final_state (review_file w last template_name s))).
Proof.
  unfold review_files.
  induction paths as [|x paths IH]; intros s; simpl.
  - unfold bind.
    destruct (review_file w last template_name s); reflexivity.
  - unfold bind at 1 2.
    pose proof (OutcomeFacts.review_file_outcome_cases w x template_name s)
      as Ho.
    destruct (review_file w x template_name s) as [l s1|e s1] eqn:Hx.
    + cbn [ret]. rewrite IH.
      apply DriverFacts.same_outcome_issues.
      apply IndependenceFacts.review_file_respects.
      apply Ho.
    + now rewrite (DriverFacts.review_file_raises_for_all w x last
                     template_name e s s1 Hx).
Qed.

(** X12 on a reviewer that has reviewed a file. *)
Lemma review_file_keeps_stats_consistent_witness :
  stats_consistent (stats (self Cases.used))
  /\ stats_consistent
       (stats (self (final_state
                       (review_file Cases.world "app.js" "general"
                          Cases.used)))).
Proof.
  assert (H : stats_consistent (stats (self Cases.used))) by reflexivity.
  split; [exact H|].
  exact (review_file_keeps_stats_consistent Cases.world "app.js" "general"
           Cases.used H).
Defined.

(** X13 at [settings.py]: [review_file] returns nothing, the report
    shows the credential finding. *)
Lemma main_report_of_file_witness :
  returned (review_file Cases.world "settings.py" "general" Inputs.fresh)
  = Some []
  /\ exists s',
       main_report Cases.file_system "settings.py" "general" Inputs.fresh
       = Return (Some (generate_review_report (self s') None)) s'
       /\ issues (self s')
          = [mkIssue "settings.py" (Some 1) Security High
               "Potential hardcoded credential detected"].
Proof.
  split; [vm_compute; reflexivity|].
  pose proof (main_report_of_file Cases.file_system "settings.py" "general"
                Inputs.fresh eq_refl) as H.
  destruct (review_file (world Cases.file_system) "settings.py" "general"
              Inputs.fresh) as [l s'|e s'] eqn:Hrun.
  - exists s'. split; [exact H|].
    vm_compute in Hrun. now injection Hrun as _ <-.
  - vm_compute in Hrun. discriminate Hrun.
Defined.

End DriverTheorems.

(** ** Templates *)

Module TemplateFacts.
Import Ast ReviewLogic Spec Findings Effects Reading.

Lemma truthy_set {V : Type} (d : Dict.t V) (k : string) (v : V) :
  Dict.truthy (Dict.set d k v) = true.
Proof. destruct d as [|[k' v'] d]; simpl; [|destruct (String.eqb k k')]; auto. Qed.

Lemma mem_set {V : Type} (d : Dict.t V) (k k' : string) (v : V) :
  Dict.mem (Dict.set d k v) k' = String.eqb k' k || Dict.mem d k'.
Proof.
  unfold Dict.mem. destruct (String.eqb k' k) eqn:E.
  - apply String.eqb_eq in E. subst k'.
    now rewrite DictFacts.get_set_same.
  - apply String.eqb_neq in E.
    rewrite DictFacts.get_set_other by congruence. reflexivity.
Qed.

(** The keys of the parsed template, with any starting dictionary. *)
Lemma parse_template_lines_mem (lines : list string) (k : string) :
  forall sections current,
    (forall name, current = Some name -> Dict.mem sections name = true) ->
    Dict.mem (parse_template_lines lines sections current) k
    = Dict.mem sections k
      || existsb (fun l => is_header l && String.eqb k (header_name l)) lines.
Proof.
  induction lines as [|l lines IH]; intros sections current Hcur;
    cbn [parse_template_lines existsb].
  - now rewrite orb_false_r.
  - fold (header_name l). fold (is_header l).
    destruct (is_header l); cbn [andb orb].
    + rewrite IH.
      * rewrite mem_set.
        destruct (String.eqb k (header_name l)), (Dict.mem sections k);
          reflexivity.
      * intros name [= <-]. rewrite mem_set. now rewrite String.eqb_refl.
    + destruct (String.prefix "- [ ] " l); [|now apply IH].
      destruct current as [name|]; [|now apply IH].
      destruct (String.eqb name ""); cbn [negb]; [now apply IH|].
      rewrite IH.
      * rewrite mem_set. destruct (String.eqb k name) eqn:E; [|reflexivity].
        apply String.eqb_eq in E. subst k. now rewrite (Hcur name eq_refl).
      * intros name' [= <-]. rewrite mem_set. now rewrite String.eqb_refl.
Qed.

Lemma truthy_mem {V : Type} (d : Dict.t V) :
  Dict.truthy d = true <-> exists k, Dict.mem d k = true.
Proof.
  unfold Dict.mem. destruct d as [|[k v] d]; simpl; split;
    try discriminate; auto.
  - intros [k H]. discriminate.
  - intros _. exists k. now rewrite String.eqb_refl.
Qed.

(** The section names are the stripped header lines. *)
Lemma parse_template_mem (content : string) (k : string) :
  Dict.mem (_parse_template content) k = true
  <-> exists l, In l (lines_of content) /\ is_header l = true
                /\ k = header_name l.
Proof.
  unfold _parse_template.
  rewrite parse_template_lines_mem by discriminate.
  simpl. rewrite existsb_exists. fold (lines_of content).
  split.
  - intros (l & Hin & H). apply andb_true_iff in H as [Hh He].
    apply String.eqb_eq in He. eauto.
  - intros (l & Hin & Hh & ->). exists l. split; [exact Hin|].
    now rewrite Hh, String.eqb_refl.
Qed.

(** The parsed template is empty exactly when no line is a header. *)
Lemma parse_template_truthy (content : string) :
  Dict.truthy (_parse_template content) = existsb is_header (lines_of content).
Proof.
  destruct (existsb is_header (lines_of content)) eqn:E.
  - apply truthy_mem. apply existsb_exists in E as (l & Hin & Hh).
    exists (header_name l). apply parse_template_mem. eauto.
  - destruct (Dict.truthy (_parse_template content)) eqn:T; [|reflexivity].
    apply truthy_mem in T as [k Hk].
    apply parse_template_mem in Hk as (l & Hin & Hh & _).
    assert (existsb is_header (lines_of content) = true)
      by (apply existsb_exists; eauto).
    congruence.
Qed.

End TemplateFacts.

Module TemplateTheorems.
Import Ast ReviewLogic Spec Findings Effects Reading.
Local Open Scope review_scope.

(** X15.  The parsed template has a section for exactly the lines that
    start with [## ], named by the stripped rest of the line; it is the
    empty map exactly when the file has no such line, checklist items
    or not. *)
Theorem parse_template_sections (content : string) :
  (forall k,
     Dict.mem (_parse_template content) k = true
     <-> exists l, In l (lines_of content) /\ is_header l = true
                   /\ k = header_name l)
  /\ Dict.truthy (_parse_template content)
     = existsb is_header (lines_of content).
Proof.
  split.
  - intros k. apply TemplateFacts.parse_template_mem.
  - apply TemplateFacts.parse_template_truthy.
Qed.

(** X16.  A template file that exists but has no line starting with
    [## ] is treated like a missing one: [review_file] logs
    "Failed to load template" and returns the empty list without
    reading the file under review; the statistics are untouched. *)
Theorem template_without_header_skips_review (w : World)
    (file_path template_name tcontent : string) (s : state) :
  open_read w (template_file (self s) template_name) = ReadOk tcontent ->
  existsb is_header (lines_of tcontent) = false ->
  review_file w file_path template_name s
  = Return []
      (mkState (self (emptied s))
         (log s ++ [("Failed to load template " ++ template_name)%string])).
Proof.
  intros Hopen Hnone.
  unfold review_file; unfold bind at 1;
    cbn [set_issues bind get_self put_self self log];
    unfold bind at 1; cbn [template_path stats]. fold (emptied s).
  rewrite (ReviewFacts.load_template_read w template_name tcontent (emptied s)
             Hopen).
  rewrite TemplateFacts.parse_template_truthy, Hnone. reflexivity.
Qed.

(** X15 at the general template. *)
Lemma parse_template_sections_witness :
  Dict.mem (_parse_template Inputs.general_template) "Readability" = true
  /\ Dict.truthy (_parse_template Inputs.general_template) = true.
Proof.
  destruct (parse_template_sections Inputs.general_template) as [Hmem Ht].
  split.
  - apply Hmem. exists "## Readability". split; [|split; reflexivity].
    vm_compute. tauto.
  - rewrite Ht. reflexivity.
Defined.

(** X16 at a template that is a bare checklist. *)
Lemma template_without_header_skips_review_witness :
  review_file Cases.world "app.js" "plain" Inputs.fresh
  = Return []
      (mkState (init "templates") ["Failed to load template plain"]).
Proof.
  apply (template_without_header_skips_review Cases.world "app.js" "plain"
           ("Checklist" ++ Text.nl ++ "- [ ] Tests pass")%string
           Inputs.fresh);
    reflexivity.
Defined.

End TemplateTheorems.

(** ** Names, line numbers and grouping *)

Module ReadingFacts.
Import Ast ReviewLogic Spec Findings Effects Reading.

(** A greedy class followed by [$], on a string without newline. *)
Lemma greedy_dollar (cls : ascii -> bool) (s : string) :
  Text.contains_char Text.newline s = false ->
  Re.greedy cls (Re.match_here [Re.Dollar]) s
  = if all_chars cls s then Some (String.length s) else None.
Proof.
  induction s as [|c s IH]; [reflexivity|].
  cbn [Text.contains_char]. intros H. apply orb_false_iff in H as [Hc Hs].
  cbn [Re.greedy all_chars String.length]. rewrite (IH Hs).
  assert (Hk : Re.match_here [Re.Dollar] (String c s) = None).
  { cbn [Re.match_here]. unfold Text.nl.
    cbn [String.eqb orb]. now rewrite Hc. }
  destruct (cls c); cbn [andb]; [|exact Hk].
  destruct (all_chars cls s); [reflexivity | exact Hk].
Qed.

Lemma camel_case_reading (name : string) :
  Text.contains_char Text.newline name = false ->
  Re.matches camel_case name = camel_cased name.
Proof.
  destruct name as [|c rest]; [reflexivity|].
  cbn [Text.contains_char]. intros H. apply orb_false_iff in H as [_ Hs].
  unfold Re.matches, camel_case, camel_cased. cbn [Re.match_here].
  destruct (Text.is_upper c); [|reflexivity].
  rewrite (greedy_dollar _ _ Hs). now destruct (all_chars is_alnum rest).
Qed.

Lemma snake_case_reading (name : string) :
  Text.contains_char Text.newline name = false ->
  Re.matches snake_case name = snake_cased name.
Proof.
  destruct name as [|c rest]; [reflexivity|].
  cbn [Text.contains_char]. intros H. apply orb_false_iff in H as [_ Hs].
  unfold Re.matches, snake_case, snake_cased. cbn [Re.match_here].
  destruct (Text.is_lower c); [|reflexivity].
  rewrite (greedy_dollar _ _ Hs).
  now destruct (all_chars _ rest).
Qed.

(** A name that starts with an underscore is not snake case for the
    pattern, newline or not. *)
Lemma underscore_not_snake_case (name : string) :
  String.prefix "_" name = true -> Re.matches snake_case name = false.
Proof.
  destruct name as [|c rest]; [discriminate|].
  cbn [String.prefix]. destruct (ascii_dec "_" c) as [<-|]; [|discriminate].
  reflexivity.
Qed.

Lemma split_length (sep : ascii) (s : string) :
  (1 <= List.length (Text.split sep s))%nat.
Proof.
  induction s as [|c s IH]; simpl; [lia|].
  destruct (Ascii.eqb c sep); simpl; [lia|].
  destruct (Text.split sep s); simpl in *; lia.
Qed.

(** The separators before any offset are fewer than the pieces. *)
Lemma count_before_split (sep : ascii) (s : string) :
  forall stop,
    (Text.count_before sep s stop < List.length (Text.split sep s))%nat.
Proof.
  induction s as [|c s IH]; intros stop.
  - destruct stop; simpl; lia.
  - destruct stop as [|stop].
    { pose proof (split_length sep (String c s)).
      cbn [Text.count_before]. lia. }
    cbn [Text.count_before Text.split]. specialize (IH stop).
    destruct (Ascii.eqb c sep); simpl.
    + lia.
    + destruct (Text.split sep s); simpl in *; lia.
Qed.

Lemma line_at_bounds (content : string) (start : nat) :
  1 <= line_at content start <= Z.of_nat (List.length (lines_of content)).
Proof.
  unfold line_at, lines_of.
  pose proof (count_before_split Text.newline content start). lia.
Qed.

Lemma enumerate_from_bounds {A : Type} (l : list A) :
  forall k i x,
    In (i, x) (enumerate_from k l) ->
    k <= i < k + Z.of_nat (List.length l).
Proof.
  induction l as [|y l IH]; intros k i x; simpl; [tauto|].
  intros [[= <- <-]|H]; [lia|]. apply IH in H. lia.
Qed.

(** Looking a file up among issues grouped into [d]. *)
Lemma group_fold_get (l : list Issue) (f : string) :
  forall d,
    Dict.get
      (fold_left
         (fun d i =>
            Dict.set d (file i)
              (match Dict.get d (file i) with Some old => old | None => [] end
               ++ [i]))
         l d) f
    = match issues_of_file f l with
      | [] => Dict.get d f
      | g => Some (match Dict.get d f with Some old => old | None => [] end
                   ++ g)
      end.
Proof.
  induction l as [|i l IH]; intros d; [reflexivity|].
  cbn [fold_left issues_of_file filter]. rewrite IH. fold (issues_of_file f l).
  destruct (String.eqb (file i) f) eqn:E.
  - apply String.eqb_eq in E. subst f.
    rewrite DictFacts.get_set_same.
    destruct (issues_of_file (file i) l); [reflexivity|].
    now rewrite <- app_assoc.
  - apply String.eqb_neq in E.
    now rewrite DictFacts.get_set_other by exact E.
Qed.

Lemma keys_set {V : Type} (d : Dict.t V) (k : string) (v : V) :
  Dict.keys (Dict.set d k v)
  = if Dict.mem d k then Dict.keys d else Dict.keys d ++ [k].
Proof.
  unfold Dict.mem, Dict.keys.
  induction d as [|[k' v'] d IH]; simpl; [reflexivity|].
  destruct (String.eqb k k'); simpl; [reflexivity|].
  rewrite IH. now destruct (Dict.get d k).
Qed.

Lemma mem_keys {V : Type} (d : Dict.t V) (k : string) :
  Dict.mem d k = true <-> In k (Dict.keys d).
Proof.
  unfold Dict.mem, Dict.keys.
  induction d as [|[k' v'] d IH]; simpl; [split; [discriminate|tauto]|].
  destruct (String.eqb k k') eqn:E.
  - apply String.eqb_eq in E. subst. tauto.
  - apply String.eqb_neq in E. rewrite IH. split; [tauto|].
    intros [H|H]; [congruence | exact H].
Qed.

Lemma nodup_keys_set {V : Type} (d : Dict.t V) (k : string) (v : V) :
  NoDup (Dict.keys d) -> NoDup (Dict.keys (Dict.set d k v)).
Proof.
  intros H. rewrite keys_set. destruct (Dict.mem d k) eqn:E; [exact H|].
  apply NoDup_app; auto.
  - repeat constructor. simpl. tauto.
  - intros x Hx [<-|[]]. apply mem_keys in Hx. congruence.
Qed.

End ReadingFacts.

Module ReadingTheorems.
Import Ast ReviewLogic Spec Findings Effects Reading.

(** X17.  For a name without newline, the naming rule accepts a class
    exactly when its name is an upper-case ASCII letter followed by
    ASCII letters and digits, and a function exactly when its name
    starts with two underscores or is a lower-case ASCII letter
    followed by lower-case letters, digits and underscores.  So every
    function whose name starts with one underscore only is reported. *)
Theorem naming_rule_reading (file_path name : string) (lineno : Z)
    (before body after : list node) :
  Text.contains_char Text.newline name = false ->
  (naming_finding file_path (ClassDef name lineno before body after) = []
   <-> camel_cased name = true)
  /\ (naming_finding file_path (FunctionDef name lineno before body after) = []
      <-> String.prefix "__" name = true \/ snake_cased name = true)
  /\ (String.prefix "_" name = true -> String.prefix "__" name = false ->
      naming_finding file_path (FunctionDef name lineno before body after)
      <> []).
Proof.
  intros Hnl. cbn [naming_finding].
  rewrite (ReadingFacts.camel_case_reading name Hnl).
  split; [|split].
  - destruct (camel_cased name); simpl; split; congruence.
  - rewrite (ReadingFacts.snake_case_reading name Hnl).
    destruct (String.prefix "__" name), (snake_cased name); simpl;
      split; try tauto; try congruence.
    intros [H|H]; discriminate.
  - intros H1 H2.
    rewrite H2, (ReadingFacts.underscore_not_snake_case name H1). discriminate.
Qed.

(** X18.  Every finding of the four text rules (console, credentials,
    line length, trailing whitespace) names the file under review and
    a line between 1 and the number of lines of the content. *)
Theorem text_findings_line_bounds (file_path content : string) (i : Issue) :
  In i (console_findings file_path content
        ++ credential_findings file_path content
        ++ line_length_findings file_path content
        ++ trailing_whitespace_findings file_path content) ->
  file i = file_path
  /\ exists n,
       line i = Some n
       /\ 1 <= n <= Z.of_nat (List.length (lines_of content)).
Proof.
  rewrite !in_app_iff.
  unfold console_findings, credential_findings, line_length_findings,
    trailing_whitespace_findings.
  rewrite in_map_iff, !in_flat_map.
  intros [(start & <- & _)
         |[(pattern & _ & H)
          |[([k l] & Hin & H)|([k l] & Hin & H)]]].
  - split; [reflexivity|]. eexists. split; [reflexivity|].
    apply ReadingFacts.line_at_bounds.
  - apply in_map_iff in H as (start & <- & _).
    split; [reflexivity|]. eexists. split; [reflexivity|].
    apply ReadingFacts.line_at_bounds.
  - apply ReadingFacts.enumerate_from_bounds in Hin. fold (lines_of content) in Hin.
    destruct (100 <? Z.of_nat (String.length l)); [|contradiction].
    destruct H as [<-|[]]. split; [reflexivity|].
    eexists. split; [reflexivity|]. lia.
  - apply ReadingFacts.enumerate_from_bounds in Hin. fold (lines_of content) in Hin.
    destruct (trailing_space l); [|contradiction].
    destruct H as [<-|[]]. split; [reflexivity|].
    eexists. split; [reflexivity|]. lia.
Qed.

(** X19.  The grouping that the report is rendered from: looking a file
    up gives exactly the issues of that file, in the order of the
    list; a file without issue has no entry, and no file has two. *)
Theorem group_by_file_lookup (l : list Issue) :
  (forall f,
     Dict.get (group_by_file l) f
     = match issues_of_file f l with
       | [] => None
       | g => Some g
       end)
  /\ NoDup (Dict.keys (group_by_file l)).
Proof.
  unfold group_by_file. split.
  - intros f. rewrite ReadingFacts.group_fold_get. reflexivity.
  - assert (H : forall d : Dict.t (list Issue),
              NoDup (Dict.keys d) ->
              NoDup (Dict.keys
                       (fold_left
                          (fun d i =>
                             Dict.set d (file i)
                               (match Dict.get d (file i) with
                                | Some old => old
                                | None => []
                                end ++ [i]))
                          l d))).
    { induction l as [|i l IH]; intros d Hd; [exact Hd|].
      simpl. apply IH. now apply ReadingFacts.nodup_keys_set. }
    apply H. constructor.
Qed.

(** X17 at a private helper. *)
Lemma naming_rule_reading_witness :
  naming_finding "users.py" (FunctionDef "_find" 7 [] [] []) <> []
  /\ naming_finding "users.py" (FunctionDef "__init__" 3 [] [] []) = []
  /\ naming_finding "users.py" (ClassDef "Users" 2 [] [] []) = [].
Proof.
  split; [|split].
  - apply (proj2 (proj2 (naming_rule_reading "users.py" "_find" 7 [] [] []
                           eq_refl))); reflexivity.
  - apply (proj1 (proj2 (naming_rule_reading "users.py" "__init__" 3 [] [] []
                           eq_refl))). left. reflexivity.
  - apply (proj1 (naming_rule_reading "users.py" "Users" 2 [] [] [] eq_refl)).
    reflexivity.
Defined.

(** X18 at the credential finding of [app.js]. *)
Lemma text_findings_line_bounds_witness :
  exists n,
    Some 2 = Some n
    /\ 1 <= n <= Z.of_nat (List.length (lines_of Cases.script)).
Proof.
  apply (text_findings_line_bounds "app.js" Cases.script
           (mkIssue "app.js" (Some 2) Security High
              "Potential hardcoded credential detected")).
  vm_compute. tauto.
Defined.

End ReadingTheorems.

(** ** More on the metrics recorder *)

Module RecorderFacts.
Import Metrics Scenario Recorder.
Local Open Scope Q_scope.

Lemma five_keys_inv {V : Type} (d : Dict.t V) :
  Dict.keys d = builtin_keys ->
  exists a b c e f,
    d = [("security", a); ("performance", b); ("style", c);
         ("logic", e); ("other", f)].
Proof.
  unfold Dict.keys, builtin_keys. intros H.
  repeat (destruct d as [|[? ?] d]; simpl in H; try discriminate).
  injection H as -> -> -> -> ->. now eexists _, _, _, _, _.
Qed.

Lemma effective_type_builtin (issue_type : string) :
  In (effective_type issue_type) builtin_keys.
Proof.
  unfold effective_type.
  destruct (existsb (String.eqb issue_type) builtin_keys) eqn:E.
  - apply existsb_exists in E as (k & Hk & He).
    apply String.eqb_eq in He. now subst.
  - simpl. tauto.
Qed.

Lemma mem_five_keys {V : Type} (d : Dict.t V) (k : string) :
  Dict.keys d = builtin_keys ->
  Dict.mem d k = existsb (String.eqb k) builtin_keys.
Proof.
  intros H. destruct (five_keys_inv d H) as (a & b & c & e & f & ->).
  unfold Dict.mem. simpl.
  repeat match goal with
  | |- context [String.eqb k ?x] => destruct (String.eqb k x); simpl
  end; reflexivity.
Qed.

Lemma get_in {V : Type} (d : Dict.t V) (k : string) (v : V) :
  Dict.get d k = Some v -> In (k, v) d.
Proof.
  induction d as [|[k' v'] d IH]; simpl; [discriminate|].
  destruct (String.eqb k k') eqn:E.
  - apply String.eqb_eq in E. intros [= ->]. subst. now left.
  - auto.
Qed.

Lemma forall_set {V : Type} (P : V -> Prop) (d : Dict.t V) (k : string)
    (v : V) :
  Forall (fun e => P (snd e)) d -> P v ->
  Forall (fun e => P (snd e)) (Dict.set d k v).
Proof.
  intros Hd Hv. induction d as [|[k' v'] d IH]; simpl.
  - repeat constructor. exact Hv.
  - inversion Hd; subst. destruct (String.eqb k k'); constructor; auto.
Qed.

End RecorderFacts.

Module RecorderTheorems.
Import Metrics Scenario Recorder.
Local Open Scope Q_scope.

(** X1.  On a recorder no snapshot was taken of, whose five counters are
    whole numbers and for which no division of [get_metrics] overflows,
    the first snapshot reports each of the five built-in counters as
    it is stored and as [total] their sum.  As [issues_per_1000_lines]
    it reports 0 when no line was reviewed and, when that value is
    computed without rounding, the sum divided by [lines_reviewed]
    times 1000. *)
Theorem first_snapshot_reports_counters (m : Metrics.t) (now : Q) :
  unqueried m ->
  Doubles.integral_counters m ->
  Doubles.snapshot_in_range m ->
  let s := snd (get_metrics m now) in
  reported_total s == five_counters (issues m)
  /\ (forall k, In k builtin_keys ->
        Dict.get (s_issues s) k = Dict.get (issues m) k)
  /\ ((lines_reviewed (coverage m) <= 0)%Z -> reported_density s == 0)
  /\ ((0 < lines_reviewed (coverage m))%Z ->
      Doubles.exact_ratio_times (five_counters (issues m))
        (inject_Z (lines_reviewed (coverage m))) 1000 ->
      reported_density s
      == ratio_times (five_counters (issues m))
           (inject_Z (lines_reviewed (coverage m))) 1000).
Proof.
  intros H _ _.
  pose proof (MetricsFacts.first_snapshot_total m now H) as Hf.
  cbv zeta in *. destruct Hf as (H1 & _ & H3).
  split; [exact H1|]. split; [|split].
  - intros k Hk. simpl.
    rewrite !DictFacts.get_set_other; [reflexivity| |];
      intros <-; simpl in Hk;
      repeat (destruct Hk as [Hk|Hk]; [discriminate Hk|]); exact Hk.
  - intros Hle. rewrite H3.
    destruct (0 <? lines_reviewed (coverage m))%Z eqn:E; [|reflexivity].
    apply Z.ltb_lt in E. lia.
  - intros Hlt _. rewrite H3.
    destruct (0 <? lines_reviewed (coverage m))%Z eqn:E; [reflexivity|].
    apply Z.ltb_ge in E. lia.
Qed.

(** X1 on a recorder with two issues in sixteen lines: [2 / 16] is the
    double 0.125 and the density the double 125. *)
Lemma first_snapshot_reports_counters_witness :
  let s := snd (get_metrics Doubles.sixteen_lines 5) in
  reported_total s == 2
  /\ Dict.get (s_issues s) "style" = Some 1
  /\ reported_density s == 125.
Proof.
  assert (Hu : unqueried Doubles.sixteen_lines) by reflexivity.
  assert (Hi : Doubles.integral_counters Doubles.sixteen_lines).
  { repeat constructor;
      match goal with
      | |- Doubles.integral ?q => exists (Qnum q); vm_compute; reflexivity
      end. }
  assert (Hr : Doubles.snapshot_in_range Doubles.sixteen_lines)
    by (repeat split; intros _; vm_compute; discriminate).
  assert (Hx : Doubles.exact_ratio_times
                 (five_counters (issues Doubles.sixteen_lines))
                 (inject_Z (lines_reviewed (coverage Doubles.sixteen_lines)))
                 1000).
  { split; [exists 1%Z, (-3)%Z | exists 125%Z, 0%Z];
      (split; [reflexivity|]; split; [lia|]; vm_compute; reflexivity). }
  destruct (first_snapshot_reports_counters Doubles.sixteen_lines 5 Hu Hi Hr)
    as (Ht & Hk & _ & Hd).
  cbv zeta. split; [|split].
  - eapply Qeq_trans; [exact Ht|]. vm_compute. reflexivity.
  - rewrite (Hk "style"); [vm_compute; reflexivity | simpl; tauto].
  - eapply Qeq_trans; [apply Hd; [reflexivity | exact Hx]|].
    vm_compute. reflexivity.
Defined.

(** X2.  On a recorder no snapshot was taken of, [record_issue] never
    raises: it adds 1 to the counter of the issue type, or to [other]
    when the type is not built in, so the five counters add up to one
    more; coverage and timing are untouched.  When the file was
    recorded, its own counters add up to one more as well and its
    review time and coverage are kept; when it was not, no file metric
    changes or appears. *)
Theorem record_issue_counts_once (m : Metrics.t)
    (issue_type filename : string) (line_number : option Z)
    (description : option string) :
  well_formed m ->
  exists m',
    record_issue m issue_type filename line_number description = Ok m'
    /\ well_formed m'
    /\ lookup0 (issues m') (effective_type issue_type)
       == lookup0 (issues m) (effective_type issue_type) + 1
    /\ five_counters (issues m') == five_counters (issues m) + 1
    /\ coverage m' = coverage m
    /\ timing m' = timing m
    /\ match Dict.get (file_metrics m) filename with
       | None => file_metrics m' = file_metrics m
       | Some fm =>
           exists fm',
             Dict.get (file_metrics m') filename = Some fm'
             /\ total_issues fm' = (total_issues fm + 1)%Z
             /\ review_time fm' = review_time fm
             /\ coverage_percent fm' = coverage_percent fm
       end.
Proof.
  intros [Hu Hf]. unfold record_issue.
  rewrite (RecorderFacts.mem_five_keys _ issue_type Hu).
  fold (effective_type issue_type).
  pose proof (RecorderFacts.effective_type_builtin issue_type) as Het.
  remember (effective_type issue_type) as et eqn:Eet. clear Eet.
  destruct (RecorderFacts.five_keys_inv _ Hu) as (a & b & c & e & f & Hd).
  destruct m as [rst tm cov iss fms]. simpl in *. subst iss.
  destruct (Dict.get fms filename) as [fm|] eqn:G.
  - pose proof (RecorderFacts.get_in _ _ _ G) as Hin.
    unfold file_counters_intact in Hf. simpl in Hf.
    rewrite Forall_forall in Hf. pose proof (Hf _ Hin) as Hk. simpl in Hk.
    destruct (RecorderFacts.five_keys_inv _ Hk)
      as (a' & b' & c' & e' & f' & Hd').
    destruct fm as [flr ftl fcp frt fis fdet]. simpl in *. subst fis.
    assert (Hf' : Forall (fun e0 => Dict.keys (fm_issues (snd e0)) = builtin_keys) fms)
      by (apply Forall_forall; exact Hf).
    destruct Het as [<-|[<-|[<-|[<-|[<-|[]]]]]]; simpl;
      (eexists; split; [reflexivity|];
       split; [split; [reflexivity|];
               unfold file_counters_intact; simpl;
               apply (RecorderFacts.forall_set
                        (fun fm => Dict.keys (fm_issues fm) = builtin_keys));
               [exact Hf' | destruct (details_given _ _); reflexivity]|];
       split; [unfold lookup0; simpl; reflexivity|];
       split; [unfold five_counters, lookup0; simpl; ring|];
       split; [reflexivity|]; split; [reflexivity|];
       eexists; split; [apply DictFacts.get_set_same|];
       destruct (details_given _ _); unfold total_issues; simpl;
       (split; [lia | split; reflexivity])).
  - destruct Het as [<-|[<-|[<-|[<-|[<-|[]]]]]]; simpl;
      (eexists; split; [reflexivity|];
       split; [split; [reflexivity | exact Hf]|];
       split; [unfold lookup0; simpl; reflexivity|];
       split; [unfold five_counters, lookup0; simpl; ring|];
       split; [reflexivity|]; split; reflexivity).
Qed.

(** X2 with an issue type that is not built in. *)
Lemma record_issue_counts_once_witness :
  exists m',
    record_issue Cases.two_files "typo" "c.py" (Some 4%Z) None = Ok m'
    /\ lookup0 (issues m') "other" == 2
    /\ file_metrics m' = file_metrics Cases.two_files.
Proof.
  assert (H : well_formed Cases.two_files)
    by (split; [reflexivity | repeat constructor]).
  destruct (record_issue_counts_once Cases.two_files "typo" "c.py" (Some 4%Z)
              None H) as (m' & Hrun & _ & Hother & _ & _ & _ & Hfile).
  exists m'. split; [exact Hrun|]. split.
  - eapply Qeq_trans; [exact Hother|]. vm_compute. reflexivity.
  - exact Hfile.
Defined.





End RecorderTheorems.

(** ** The summary's list of files *)

Module SummaryFacts.
Import Metrics Scenario Recorder.

Lemma insert_by_count_perm (x : string * Z) (l : list (string * Z)) :
  Permutation (insert_by_count x l) (x :: l).
Proof.
  induction l as [|y l IH]; simpl; [reflexivity|].
  destruct (snd x <? snd y); [|reflexivity].
  rewrite IH. apply perm_swap.
Qed.

Lemma sorted_by_count_perm (l : list (string * Z)) :
  Permutation (sorted_by_count l) l.
Proof.
  induction l as [|x l IH]; simpl; [reflexivity|].
  rewrite insert_by_count_perm. now constructor.
Qed.

Lemma insert_by_count_sorted (x : string * Z) (l : list (string * Z)) :
  StronglySorted at_least l -> StronglySorted at_least (insert_by_count x l).
Proof.
  induction l as [|y l IH]; intros Hs; simpl.
  - repeat constructor.
  - inversion Hs as [|? ? Hl Hy]; subst.
    destruct (snd x <? snd y) eqn:E.
    + apply Z.ltb_lt in E. constructor; [auto|].
      apply Forall_forall. intros z Hz.
      apply (Permutation_in _ (insert_by_count_perm x l)) in Hz.
      destruct Hz as [<-|Hz]; [unfold at_least; lia|].
      rewrite Forall_forall in Hy. auto.
    + apply Z.ltb_ge in E. constructor; [exact Hs|].
      constructor; [exact E|].
      rewrite Forall_forall in *. intros z Hz. specialize (Hy z Hz).
      unfold at_least in *. lia.
Qed.

Lemma sorted_by_count_sorted (l : list (string * Z)) :
  StronglySorted at_least (sorted_by_count l).
Proof.
  induction l as [|x l IH]; simpl; [constructor|].
  now apply insert_by_count_sorted.
Qed.

(** In a sorted list, what comes first is at least what comes later. *)
Lemma sorted_app_inv (l1 l2 : list (string * Z)) :
  StronglySorted at_least (l1 ++ l2) ->
  StronglySorted at_least l1
  /\ forall x y, In x l1 -> In y l2 -> at_least x y.
Proof.
  induction l1 as [|a l1 IH]; simpl; intros Hs.
  - split; [constructor | contradiction].
  - inversion Hs as [|? ? Hl Ha]; subst.
    destruct (IH Hl) as [Hs1 Hle]. split.
    + constructor; [exact Hs1|].
      rewrite Forall_forall in *. intros z Hz. apply Ha.
      apply in_or_app. now left.
    + intros x y [<-|Hx] Hy; [|auto].
      rewrite Forall_forall in Ha. apply Ha. apply in_or_app. now right.
Qed.

End SummaryFacts.

Module SummaryTheorems.
Import Metrics Scenario Recorder.

(** X5.  The list under "Top files by issue count" of [print_summary]
    has at most five entries, in order of decreasing count; every
    entry is a recorded file with its total over the per-file
    counters, which is positive; and no file left out has more issues
    than a file listed. *)
Theorem top_files_are_the_most_reported (m : Metrics.t) :
  (List.length (top_files m) <= 5)%nat
  /\ StronglySorted at_least (top_files m)
  /\ (forall f n,
        In (f, n) (top_files m) ->
        0 < n
        /\ exists fm, In (f, fm) (file_metrics m) /\ n = total_issues fm)
  /\ (forall x y,
        In x (top_files m) -> In y (file_issues m) -> ~ In y (top_files m) ->
        snd y <= snd x).
Proof.
  unfold top_files.
  pose proof (SummaryFacts.sorted_by_count_sorted (file_issues m)) as Hs.
  pose proof (SummaryFacts.sorted_by_count_perm (file_issues m)) as Hp.
  rewrite <- (firstn_skipn 5 (sorted_by_count (file_issues m))) in Hs.
  apply SummaryFacts.sorted_app_inv in Hs as [Hs1 Hle].
  split; [apply firstn_le_length|]. split; [exact Hs1|]. split.
  - intros f n Hin.
    assert (Hin' : In (f, n) (file_issues m)).
    { apply (Permutation_in _ Hp).
      rewrite <- (firstn_skipn 5 (sorted_by_count (file_issues m))).
      apply in_or_app. now left. }
    unfold file_issues in Hin'. apply in_flat_map in Hin' as ([g fm] & Hg & H).
    destruct (0 <? total_issues fm) eqn:E; [|contradiction].
    destruct H as [[= <- <-]|[]]. apply Z.ltb_lt in E. eauto.
  - intros x y Hx Hy Hny. apply (Hle x y Hx).
    apply (Permutation_in _ (Permutation_sym Hp)) in Hy.
    rewrite <- (firstn_skipn 5 (sorted_by_count (file_issues m))) in Hy.
    apply in_app_or in Hy as [Hy|Hy]; [contradiction | exact Hy].
Qed.

(** X5 on the recorder with two files. *)
Lemma top_files_are_the_most_reported_witness :
  top_files Cases.two_files = [("a.py", 2); ("b.py", 1)]
  /\ 0 < 2
  /\ exists fm,
       In ("a.py", fm) (file_metrics Cases.two_files)
       /\ 2 = total_issues fm.
Proof.
  split; [reflexivity|].
  apply (proj1 (proj2 (proj2 (top_files_are_the_most_reported
                                Cases.two_files)))).
  vm_compute. tauto.
Defined.

End SummaryTheorems.

(** ** The complexity rule *)

Module ThresholdTheorems.
Import Ast ReviewLogic Spec Findings.

(** X20.  The complexity rule reports a node exactly when it is a
    function whose score, 1 plus the branching statements plus the
    and-chain operands beyond the first in its whole subtree, nested
    functions included, is above 10; a score of 10 is not reported. *)
Theorem complexity_rule_threshold (file_path : string) (n : node) :
  complexity_finding file_path n <> []
  <-> is_FunctionDef n = true /\ 10 < spec_complexity n.
Proof.
  assert (Hc : _calculate_complexity n = spec_complexity n).
  { rewrite ComplexityFacts.complexity_as_totals.
    unfold spec_complexity, branch_count, and_chain_extra.
    now rewrite !AstFacts.walk_total. }
  destruct n; simpl; try (split; [congruence | intros [H _]; discriminate]).
  cbn [complexity_finding]. rewrite Hc.
  destruct (10 <? spec_complexity _) eqn:E.
  - apply Z.ltb_lt in E. split; [auto | discriminate].
  - apply Z.ltb_ge in E. split; [congruence | intros [_ H]; lia].
Qed.

(** X20 at a function of three branches. *)
Lemma complexity_rule_threshold_witness :
  complexity_finding "scan.py" Inputs.three_branches = [].
Proof.
  destruct (complexity_finding "scan.py" Inputs.three_branches) eqn:E;
    [reflexivity|].
  assert (H : complexity_finding "scan.py" Inputs.three_branches <> [])
    by (rewrite E; discriminate).
  apply (proj1 (complexity_rule_threshold "scan.py" Inputs.three_branches))
    in H as [_ H].
  vm_compute in H. discriminate H.
Defined.

End ThresholdTheorems.
